(** * The DDQ chat backend: retrieval, completion, document upload

    A shallow embedding of the request handler of [app.py], of the service
    wrappers it composes ([search_service.py], [openai_service.py],
    [blob_storage_service.py]) and of the renderer of
    [document_generator.py].

    Python values that travel through the handler come from JSON (the request
    body, the documents of the search index, the handler's response), so one
    type [json] stands for them.  A Python [str] is the [string] of the bytes
    of its code points in UTF-8; a surrogate code point, which [str] admits
    on its own and JSON can deliver, is written by the same scheme.  Remote
    services and the Python runtime are parameters: a remote call is a
    function from its arguments to an [Outcome], which covers every behaviour
    of one request, since the handler calls each service at most once. *)

From Stdlib Require Import List String Ascii Bool ZArith Lia Permutation.
Import ListNotations.

Local Open Scope string_scope.
Local Open Scope list_scope.

Notation "a +:+ b" := (String.append a b) (at level 60, right associativity).

(** ** Text *)

(** The line feed that Python writes [\n]. *)
Definition nl : string := String "010" EmptyString.

(** [s * n] on a Python string. *)
Fixpoint repeat_string (s : string) (n : nat) : string :=
  match n with
  | O => ""
  | S k => s +:+ repeat_string s k
  end.

(** A byte [10xxxxxx] continues the code point started before it. *)
Definition is_continuation (c : ascii) : bool :=
  match c with
  | Ascii _ _ _ _ _ _ b6 b7 => b7 && negb b6
  end.

(** [s[:n]]: the first [n] code points of [s]. *)
Fixpoint take_codepoints (n : nat) (s : string) : string :=
  match s with
  | EmptyString => EmptyString
  | String c rest =>
      if is_continuation c then String c (take_codepoints n rest)
      else match n with
           | O => EmptyString
           | S k => String c (take_codepoints k rest)
           end
  end.

(** The code points of [s], each as a string of its own: what iterating a
    Python string yields. *)
Fixpoint continuation_run (s : string) : string * string :=
  match s with
  | EmptyString => (EmptyString, EmptyString)
  | String c rest =>
      if is_continuation c
      then let '(run, tail) := continuation_run rest in (String c run, tail)
      else (EmptyString, s)
  end.

Fixpoint codepoints_fuel (fuel : nat) (s : string) : list string :=
  match fuel, s with
  | S k, String c rest =>
      let '(run, tail) := continuation_run rest in
      String c run :: codepoints_fuel k tail
  | _, _ => []
  end.

Definition codepoints (s : string) : list string :=
  codepoints_fuel (String.length s) s.

(** [s.replace(old, new)] for one-character [old] and [new]. *)
Fixpoint replace_char (old new : ascii) (s : string) : string :=
  match s with
  | EmptyString => EmptyString
  | String c rest =>
      String (if Ascii.eqb c old then new else c) (replace_char old new rest)
  end.

(** [sep.join(parts)]. *)
Fixpoint join (sep : string) (parts : list string) : string :=
  match parts with
  | [] => ""
  | [p] => p
  | p :: rest => p +:+ sep +:+ join sep rest
  end.

(** The second byte of a surrogate code point, [A0] to [BF]. *)
Definition is_surrogate_second (c : ascii) : bool :=
  match c with
  | Ascii _ _ _ _ _ b5 b6 b7 => b7 && negb b6 && b5
  end.

(** The text holds a surrogate code point, U+D800 to U+DFFF: the byte [ED]
    followed by a byte from [A0] to [BF]. *)
Fixpoint has_surrogate (s : string) : bool :=
  match s with
  | EmptyString => false
  | String c rest =>
      (Ascii.eqb c "237" &&
       match rest with
       | String c2 _ => is_surrogate_second c2
       | EmptyString => false
       end)
      || has_surrogate rest
  end.

(** ** Values *)

#[local] Set Warnings "-register-all".

(** A JSON value, which is also the Python value it is parsed to.  Numbers
    are integers here: the handler never computes with a number, it only
    tests one for truth and passes it on. *)
Inductive json : Type :=
  | JNull
  | JBool (b : bool)
  | JInt (z : Z)
  | JStr (s : string)
  | JArr (items : list json)
  | JObj (fields : list (string * json)).

(** A Python [dict] with string keys, in insertion order; a key's value is
    that of its first binding. *)
Definition dict : Type := list (string * json).

Fixpoint dict_get (d : dict) (k : string) : option json :=
  match d with
  | [] => None
  | (k', v) :: rest => if String.eqb k' k then Some v else dict_get rest k
  end.

(** Python's truth value of an object: [None], [False], zero, and the empty
    string, list and dict are false. *)
Definition truthy (v : json) : bool :=
  match v with
  | JNull => false
  | JBool b => b
  | JInt z => negb (Z.eqb z 0)
  | JStr s => negb (String.eqb s "")
  | JArr items => match items with [] => false | _ => true end
  | JObj fields => match fields with [] => false | _ => true end
  end.

(** Lists and dicts have no hash: they cannot enter a set. *)
Definition hashable (v : json) : bool :=
  match v with
  | JArr _ | JObj _ => false
  | _ => true
  end.

(** [==] between hashable values: [True == 1] and [False == 0], a string
    equals only the same string, [None] only [None]. *)
Definition py_eq (a b : json) : bool :=
  match a, b with
  | JNull, JNull => true
  | JStr s, JStr t => String.eqb s t
  | JBool x, JBool y => Bool.eqb x y
  | JInt x, JInt y => Z.eqb x y
  | JBool x, JInt y => Z.eqb (if x then 1 else 0) y
  | JInt x, JBool y => Z.eqb x (if y then 1 else 0)
  | _, _ => false
  end.

Definition py_in (v : json) (l : list json) : bool := existsb (py_eq v) l.

(** ** Exceptions and outcomes *)

(** An exception that is an instance of [Exception], the kind that every
    [except] clause of the program names or includes: its class and the text
    [str(e)] that the handlers print.  [KeyboardInterrupt], [SystemExit] and
    the other exceptions outside [Exception] signal the end of the process,
    not the failure of a call; they are not outcomes here. *)
Record exn : Type := Exception { exn_class : string; exn_text : string }.

Inductive Outcome (A : Type) : Type :=
  | Return (a : A)
  | Raise (e : exn).
Arguments Return {A} a.
Arguments Raise {A} e.

(** A computation that emits events of type [E] (printed lines, calls of
    remote services) and then returns or raises. *)
Definition W (E A : Type) : Type := (list E * Outcome A)%type.

Definition ret {E A} (a : A) : W E A := ([], Return a).
Definition raise {E A} (e : exn) : W E A := ([], Raise e).
Definition emit {E} (ev : E) : W E unit := ([ev], Return tt).
Definition lift {E A} (o : Outcome A) : W E A := ([], o).

Definition bind {E A B} (m : W E A) (k : A -> W E B) : W E B :=
  match m with
  | (t, Return a) => let '(t', r) := k a in (t ++ t', r)
  | (t, Raise e) => (t, Raise e)
  end.

(** [try: m  except Exception as e: h e]. *)
Definition try_except {E A} (m : W E A) (h : exn -> W E A) : W E A :=
  match m with
  | (t, Raise e) => let '(t', r) := h e in (t ++ t', r)
  | done => done
  end.

(** The outcome of [m] as a value: the first half of a [try] whose [except]
    clause does more than compute a replacement. *)
Definition attempt {E A} (m : W E A) : W E (Outcome A) :=
  (fst m, Return (snd m)).

(** A computation of a service, run inside one with more kinds of events. *)
Definition relabel {E F A} (f : E -> F) (m : W E A) : W F A :=
  (map f (fst m), snd m).

Declare Scope w_scope.
Delimit Scope w_scope with w.
Notation "x <- m ;; k" := (bind m (fun x => k))
  (at level 61, m at next level, right associativity) : w_scope.
Notation "' pat <- m ;; k" := (bind m (fun x => match x with pat => k end))
  (at level 61, pat pattern, m at next level, right associativity) : w_scope.
Notation "m ;; k" := (bind m (fun _ => k))
  (at level 61, right associativity) : w_scope.
Local Open Scope w_scope.

(** ** Operations of Python objects *)

(** [type(v).__name__]. *)
Definition type_name (v : json) : string :=
  match v with
  | JNull => "NoneType"
  | JBool _ => "bool"
  | JInt _ => "int"
  | JStr _ => "str"
  | JArr _ => "list"
  | JObj _ => "dict"
  end.

Fixpoint has_quote (s : string) : bool :=
  match s with
  | EmptyString => false
  | String c rest => Ascii.eqb c "'" || has_quote rest
  end.

(** [repr] of the keys and messages that reach a [KeyError]: between
    double quotes when the text has a single quote, between single quotes
    otherwise. *)
Definition repr_text (s : string) : string :=
  let quote := if has_quote s then String "034" EmptyString else "'" in
  quote +:+ s +:+ quote.

Definition AttributeError (text : string) : exn := Exception "AttributeError" text.
Definition TypeError (text : string) : exn := Exception "TypeError" text.
Definition KeyError (key : string) : exn := Exception "KeyError" (repr_text key).
Definition ValueError (text : string) : exn := Exception "ValueError" text.
Definition UnicodeEncodeError (text : string) : exn :=
  Exception "UnicodeEncodeError" text.

Definition no_attribute (v : json) (name : string) : exn :=
  AttributeError ("'" +:+ type_name v +:+ "' object has no attribute '" +:+ name +:+ "'").
Definition not_subscriptable (v : json) : exn :=
  TypeError ("'" +:+ type_name v +:+ "' object is not subscriptable").
Definition not_iterable (v : json) : exn :=
  TypeError ("'" +:+ type_name v +:+ "' object is not iterable").
Definition unhashable (v : json) : exn :=
  TypeError ("unhashable type: '" +:+ type_name v +:+ "'").

(** [s.encode("utf-8")]: the bytes of the text, which are the text itself;
    a surrogate code point has no encoding.  The text of the error names
    also the character and its position. *)
Definition encode_utf8 (s : string) : Outcome string :=
  if has_surrogate s
  then Raise (UnicodeEncodeError "'utf-8' codec can't encode character: surrogates not allowed")
  else Return s.

(** [v.get(k, default)]: only a dict has the method. *)
Definition py_get (v : json) (k : string) (default : json) : Outcome json :=
  match v with
  | JObj d => Return (match dict_get d k with Some x => x | None => default end)
  | other => Raise (no_attribute other "get")
  end.

(** [v[k]] for a string [k]. *)
Definition py_getitem (v : json) (k : string) : Outcome json :=
  match v with
  | JObj d =>
      match dict_get d k with
      | Some x => Return x
      | None => Raise (KeyError k)
      end
  | JArr _ => Raise (TypeError "list indices must be integers or slices, not str")
  | JStr _ => Raise (TypeError "string indices must be integers, not 'str'")
  | other => Raise (not_subscriptable other)
  end.

(** [a and b], where evaluating [b] may raise. *)
Definition py_and (a : json) (b : Outcome json) : Outcome json :=
  if truthy a then b else Return a.

(** The elements that [for x in v] visits. *)
Definition py_iter (v : json) : Outcome (list json) :=
  match v with
  | JArr items => Return items
  | JObj fields => Return (map (fun kv => JStr (fst kv)) fields)
  | JStr s => Return (map JStr (codepoints s))
  | other => Raise (not_iterable other)
  end.

(** ** The Python runtime *)

(** A Python [set] of hashable values.  The order in which a set is iterated
    follows the hash table, and the hash of a string changes from process to
    process: the order is a parameter, the laws say what every order obeys.
    Adding a value equal to a member leaves the set as it is; adding another
    value yields the old members and the new one, in some order. *)
Record PySet : Type := {
  pyset : Type;
  set_new : pyset;
  set_add : json -> pyset -> pyset;
  set_iter : pyset -> list json;
  set_iter_new : set_iter set_new = [];
  set_add_member :
    forall v s, py_in v (set_iter s) = true -> set_add v s = s;
  set_add_fresh :
    forall v s, py_in v (set_iter s) = false ->
      Permutation (set_iter (set_add v s)) (v :: set_iter s)
}.

(** What the handler takes from the runtime besides its sets: [repr] for the
    values whose text the model does not spell out (numbers, lists, dicts),
    the eight hexadecimal digits of [os.urandom(4).hex()], and the clock as
    [datetime.now().strftime(format)]. *)
Record Runtime : Type := {
  rt_set : PySet;
  rt_repr : json -> string;
  rt_urandom_hex : string;
  rt_strftime : string -> string
}.

(** [str(v)], as an f-string formats [v]. *)
Definition py_str (rt : Runtime) (v : json) : string :=
  match v with
  | JStr s => s
  | JNull => "None"
  | JBool true => "True"
  | JBool false => "False"
  | other => rt_repr rt other
  end.

(** [sep.join(values)]: every item must be a [str]; the text of the error
    names also the position of the item. *)
Fixpoint str_items (values : list json) : Outcome (list string) :=
  match values with
  | [] => Return []
  | JStr s :: rest =>
      match str_items rest with
      | Return l => Return (s :: l)
      | Raise e => Raise e
      end
  | other :: _ =>
      Raise (TypeError ("sequence item: expected str instance, " +:+
                        type_name other +:+ " found"))
  end.

Definition py_join (sep : string) (values : list json) : Outcome string :=
  match str_items values with
  | Return l => Return (join sep l)
  | Raise e => Raise e
  end.

(** ** search_service.py *)

(** What [SearchClient.search] of the Azure SDK gives back: the documents it
    yields when iterated, the error that ends the iteration if one does, and
    [get_count()]. *)
Record SearchItemPaged : Type := {
  yielded : list dict;
  iteration_error : option exn;
  get_count : Outcome json
}.

(** The remote index: [search(search_text, query_type, query_language,
    semantic_configuration_name, filter, top, include_total_count)]. *)
Definition SearchClient : Type :=
  json -> string -> string -> string -> option string -> nat -> bool ->
  Outcome SearchItemPaged.

Definition dict_getitem (d : dict) (k : string) : Outcome json :=
  match dict_get d k with
  | Some x => Return x
  | None => Raise (KeyError k)
  end.

Definition dict_get_default (d : dict) (k : string) (default : json) : json :=
  match dict_get d k with
  | Some x => x
  | None => default
  end.

(** The [document] that [search_documents] builds from one result. *)
Definition extract_document (result : dict) : Outcome json :=
  match dict_getitem result "id" with
  | Raise e => Raise e
  | Return id =>
      match dict_getitem result "@search.score" with
      | Raise e => Raise e
      | Return score =>
          Return (JObj
            [ ("id", id);
              ("title", dict_get_default result "title" (JStr "Untitled"));
              ("content", dict_get_default result "content" (JStr ""));
              ("source", dict_get_default result "source" (JStr ""));
              ("sourceFile", dict_get_default result "sourceFile" (JStr ""));
              ("score", score);
              ("captions", dict_get_default result "@search.captions" (JArr [])) ])
      end
  end.

(** [for result in results: ... search_results.append(document)]. *)
Fixpoint extract_documents (results : list dict) (failure : option exn)
    : Outcome (list json) :=
  match results with
  | [] =>
      match failure with
      | Some e => Raise e
      | None => Return []
      end
  | result :: rest =>
      match extract_document result with
      | Raise e => Raise e
      | Return document =>
          match extract_documents rest failure with
          | Raise e => Raise e
          | Return documents => Return (document :: documents)
          end
      end
  end.

Module AzureSearchService.

(** [search_documents(query_text, filter_condition=None, top=5)]; the
    events are the lines it prints. *)
Definition search_documents (search_client : SearchClient)
    (query_text : json) (filter_condition : option string) (top : nat)
    : W string json :=
  try_except
    (results <- lift (search_client query_text "semantic" "en-us" "default"
                        filter_condition top true) ;;
     search_results <- lift (extract_documents (yielded results)
                               (iteration_error results)) ;;
     count <- lift (get_count results) ;;
     ret (JObj [("count", count); ("results", JArr search_results)]))
    (fun e =>
       emit ("Error searching documents: " +:+ exn_text e) ;;
       raise e).

End AzureSearchService.

(** ** openai_service.py *)

Inductive Role : Type := system | user | assistant.

Record Message : Type := { role : Role; content : json }.

Definition SystemMessage (text : string) : Message :=
  {| role := system; content := JStr text |}.
Definition UserMessage (value : json) : Message :=
  {| role := user; content := value |}.

(** The response of the model: each choice carries a message, whose content
    is a string or [None]. *)
Record ChatChoice : Type := { message_content : json }.
Record ChatCompletions : Type := { choices : list ChatChoice }.

(** The hosted model: [complete(messages, model, max_tokens)]. *)
Definition ChatCompletionsClient : Type :=
  list Message -> string -> nat -> Outcome ChatCompletions.

Definition AZURE_OAI_MODEL_NAME : string := "o4-mini-custom-gpt".

(** [get_openai_completion(messages, max_tokens=1500)]: the call, and on an
    error a printed line and the same error again. *)
Definition get_openai_completion (client : ChatCompletionsClient)
    (messages : list Message) (max_tokens : nat) : W string ChatCompletions :=
  try_except
    (response <- lift (client messages AZURE_OAI_MODEL_NAME max_tokens) ;;
     ret response)
    (fun e =>
       emit ("Error calling Azure OpenAI: " +:+ exn_text e) ;;
       raise e).

(** ** blob_storage_service.py *)

(** A blob of the container: [upload_blob(data, overwrite, content_type)]
    and its [url]. *)
Record BlobClient : Type := {
  upload_blob : string -> bool -> string -> Outcome unit;
  url : string
}.

(** The container: [get_blob_client(blob_name)]. *)
Definition ContainerClient : Type := string -> Outcome BlobClient.

Module BlobStorageService.

(** [upload_document(document_content, blob_name, content_type)]: the URL
    of the blob, or [None] after any error. *)
Definition upload_document (container_client : ContainerClient)
    (document_content blob_name content_type : string) : W string json :=
  try_except
    (blob_client <- lift (container_client blob_name) ;;
     lift (upload_blob blob_client document_content true content_type) ;;
     ret (JStr (url blob_client)))
    (fun e =>
       emit ("Error uploading document: " +:+ exn_text e) ;;
       ret JNull).

End BlobStorageService.

(** ** app.py *)

(** What one request does that can be seen from outside: the lines it
    prints and the calls it makes on the three services. *)
Inductive event : Type :=
  | Print (line : string)
  | SearchCall (query : json) (top : nat)
  | CompletionCall (messages : list Message)
  | UploadCall (document_content blob_name content_type : string).

Definition print (line : string) : W event unit := emit (Print line).

(** The module-level names the handler reads.  [search_service] and
    [blob_service] are [None] when their configuration is missing; any
    object with the method will do for the handler, [AzureSearchService]
    and [BlobStorageService] in production and a mock in the tests. *)
Record Services : Type := {
  SYSTEM_PROMPT : string;
  search_service : option (json -> nat -> W string json);
  blob_service : option (string -> string -> string -> W string json);
  client : ChatCompletionsClient
}.

(** The request, as the handler reads it: [request.get_json()]. *)
Record Request : Type := { get_json : Outcome json }.

(** [jsonify(body), status]. *)
Record Response : Type := { body : dict; status : nat }.

Definition jsonify (fields : dict) (code : nat) : Response :=
  {| body := fields; status := code |}.

(** The type of [source_files]. *)
Definition source_set (rt : Runtime) : Type := pyset (rt_set rt).

Section Handler.

Variable rt : Runtime.
Variable app : Services.

Definition snippets_header : string :=
  nl +:+ nl +:+ "Relevant Document Snippets:" +:+ nl.
Definition no_documents_context : string :=
  nl +:+ nl +:+ "No relevant documents found in the search index for this query.".
Definition search_error_context : string :=
  nl +:+ nl +:+ "Error retrieving documents from search index.".
Definition not_configured_context : string :=
  nl +:+ nl +:+ "Azure AI Search service is not configured.".

(** The f-string that renders one snippet. *)
Definition snippet_block (source_file content_snippet : json) : string :=
  nl +:+ "---" +:+ nl +:+ "Source: " +:+ py_str rt source_file +:+ nl +:+
  "Snippet: " +:+ py_str rt content_snippet +:+ nl +:+ "---".

(** The loop over the results.  [source_files] is updated in place, so
    what was added before an exception stays added: the loop gives back
    the set together with the context or the exception. *)
Fixpoint collect_snippets (results : list json) (search_context : string)
    (source_files : source_set rt) : source_set rt * Outcome string :=
  match results with
  | [] => (source_files, Return search_context)
  | result :: rest =>
      match py_get result "content" (JStr "") with
      | Raise e => (source_files, Raise e)
      | Return content_snippet =>
          match py_get result "sourceFile" (JStr "Unknown Source") with
          | Raise e => (source_files, Raise e)
          | Return source_file =>
              if hashable source_file
              then collect_snippets rest
                     (search_context +:+ snippet_block source_file content_snippet)
                     (set_add (rt_set rt) source_file source_files)
              else (source_files, Raise (unhashable source_file))
          end
      end
  end.

(** Lines 74 to 84: what follows the call of [search_documents]. *)
Definition use_search_results (search_results : json)
    : source_set rt * Outcome string :=
  let source_files := set_new (rt_set rt) in
  match py_and search_results (py_getitem search_results "results") with
  | Raise e => (source_files, Raise e)
  | Return found =>
      if truthy found then
        match py_iter found with
        | Raise e => (source_files, Raise e)
        | Return results =>
            collect_snippets results ("" +:+ snippets_header) source_files
        end
      else (source_files, Return no_documents_context)
  end.

(** Step 1, context retrieval: the context block and the source files. *)
Definition retrieve (user_question : json) : W event (string * source_set rt) :=
  match search_service app with
  | Some search_documents =>
      r <- attempt (emit (SearchCall user_question 3) ;;
                    relabel Print (search_documents user_question 3)) ;;
      match r with
      | Return search_results =>
          match use_search_results search_results with
          | (source_files, Return search_context) =>
              ret (search_context, source_files)
          | (source_files, Raise e) =>
              print ("Error during Azure AI Search query: " +:+ exn_text e) ;;
              ret (search_error_context, source_files)
          end
      | Raise e =>
          print ("Error during Azure AI Search query: " +:+ exn_text e) ;;
          ret (search_error_context, set_new (rt_set rt))
      end
  | None => ret (not_configured_context, set_new (rt_set rt))
  end.

(** Step 2: the messages for the model. *)
Definition build_messages (search_context : string) (user_question : json)
    : list Message :=
  [ SystemMessage (SYSTEM_PROMPT app +:+ search_context);
    UserMessage user_question ].

Definition fallback_answer : string := "Sorry, I could not generate a response.".

(** [completion.choices[0].message.content if completion.choices else ...]. *)
Definition answer_text (completion : ChatCompletions) : json :=
  match choices completion with
  | first :: _ => message_content first
  | [] => JStr fallback_answer
  end.

(** Step 3, the body of the [try]. *)
Definition complete (messages : list Message) : W event json :=
  emit (CompletionCall messages) ;;
  completion <- relabel Print (get_openai_completion (client app) messages 1500) ;;
  ret (answer_text completion).

(** [user_question[:20].replace(' ', '_')]: a string can be sliced and has
    the method; a list can be sliced and lacks the method; a dict looks the
    slice up as a key, which it does not have; nothing else can be
    subscripted. *)
Definition question_fragment (user_question : json) : Outcome string :=
  match user_question with
  | JStr s => Return (replace_char " " "_" (take_codepoints 20 s))
  | JArr _ => Raise (no_attribute user_question "replace")
  | JObj _ => Raise (Exception "KeyError" "slice(None, 20, None)")
  | other => Raise (not_subscriptable other)
  end.

(** [', '.join(source_files) if source_files else 'N/A']. *)
Definition sources_text (source_files : source_set rt) : Outcome string :=
  match set_iter (rt_set rt) source_files with
  | [] => Return "N/A"
  | names => py_join ", " names
  end.

(** Step 4, the body of the [try]: the simulated document, encoded, and its
    upload. *)
Definition upload_simulated_document
    (upload_document : string -> string -> string -> W string json)
    (user_question ai_response_text : json) (source_files : source_set rt)
    : W event json :=
  fragment <- lift (question_fragment user_question) ;;
  let simulated_blob_name :=
    "generated_docs/response_" +:+ fragment +:+ "_" +:+ rt_urandom_hex rt +:+ ".docx" in
  sources <- lift (sources_text source_files) ;;
  simulated_content <-
    lift (encode_utf8
            ("Question: " +:+ py_str rt user_question +:+ nl +:+ nl +:+
             "Answer: " +:+ py_str rt ai_response_text +:+ nl +:+ nl +:+
             "Sources: " +:+ sources)) ;;
  emit (UploadCall simulated_content simulated_blob_name "text/plain") ;;
  document_url <- relabel Print
                    (upload_document simulated_content simulated_blob_name "text/plain") ;;
  print ("Simulated document uploaded to: " +:+ py_str rt document_url) ;;
  ret document_url.

(** Step 4: [document_url] stays [None] unless the upload returns. *)
Definition store_document (user_question ai_response_text : json)
    (source_files : source_set rt) : W event json :=
  match blob_service app with
  | Some upload_document =>
      try_except
        (upload_simulated_document upload_document user_question
           ai_response_text source_files)
        (fun e =>
           print ("Error during simulated document upload: " +:+ exn_text e) ;;
           ret JNull)
  | None =>
      print "Blob service not configured. Skipping document upload." ;;
      ret JNull
  end.

(** Steps 1 to 5, for a prompt that passed the check. *)
Definition answer_question (user_question : json) : W event Response :=
  '(search_context, source_files) <- retrieve user_question ;;
  let messages := build_messages search_context user_question in
  r <- attempt (complete messages) ;;
  match r with
  | Raise e =>
      print ("Error calling Azure OpenAI: " +:+ exn_text e) ;;
      ret (jsonify [("error", JStr "Failed to get response from AI model")] 500)
  | Return ai_response_text =>
      document_url <- store_document user_question ai_response_text source_files ;;
      ret (jsonify
             [ ("ai_response", ai_response_text);
               ("document_url", document_url);
               ("sources", JArr (set_iter (rt_set rt) source_files)) ]
             200)
  end.

(** [POST /api/chat]. *)
Definition chat_handler (request : Request) : W event Response :=
  try_except
    (data <- lift (get_json request) ;;
     user_question <- lift (py_get data "prompt" JNull) ;;
     if negb (truthy user_question)
     then ret (jsonify [("error", JStr "No prompt provided")] 400)
     else answer_question user_question)
    (fun e =>
       print ("An unexpected error occurred in /api/chat: " +:+ exn_text e) ;;
       ret (jsonify [("error", JStr "An internal server error occurred")] 500)).

End Handler.

(** ** document_generator.py *)

Inductive WD_ALIGN_PARAGRAPH : Type := LEFT | CENTER | RIGHT.

Record Font : Type := {
  font_name : option string;
  font_size : option nat;           (* in points *)
  font_bold : bool;
  font_italic : bool;
  font_color : option (nat * nat * nat)
}.

Record Style : Type := {
  style_name : string;
  base_style : option string;
  font : Font
}.

(** A paragraph: its text, the name of its style ([None] is the default
    paragraph style) and its alignment when one is set. *)
Record Paragraph : Type := {
  text : string;
  style : option string;
  alignment : option WD_ALIGN_PARAGRAPH
}.

(** The parts of a python-docx [Document] that the renderer touches. *)
Record Document : Type := {
  styles : list Style;
  paragraphs : list Paragraph;
  footer : Paragraph                (* sections[0].footer.paragraphs[0] *)
}.

(** python-docx is not part of the repository: the styles of its default
    template and the bytes that [save] writes are parameters. *)
Record DocxLibrary : Type := {
  default_styles : list Style;
  save : Document -> string
}.

Definition new_document (lib : DocxLibrary) : Document :=
  {| styles := default_styles lib;
     paragraphs := [];
     footer := {| text := ""; style := None; alignment := None |} |}.

Definition has_style (name : string) (doc : Document) : bool :=
  existsb (fun s => String.eqb (style_name s) name) (styles doc).

(** One statement of the renderer, on the document it mutates. *)
Definition step : Type := Document -> Outcome Document.

Definition and_then (f g : step) : step :=
  fun doc =>
    match f doc with
    | Return doc' => g doc'
    | Raise e => Raise e
    end.
Infix ">>>" := and_then (at level 55, right associativity).

(** [style = styles[name]] followed by assignments to the style. *)
Definition modify_style (name : string) (change : Style -> Style) : step :=
  fun doc =>
    if has_style name doc
    then Return {| styles := map (fun s => if String.eqb (style_name s) name
                                           then change s else s) (styles doc);
                   paragraphs := paragraphs doc;
                   footer := footer doc |}
    else Raise (KeyError ("no style with name '" +:+ name +:+ "'")).

Definition empty_font : Font :=
  {| font_name := None; font_size := None; font_bold := false;
     font_italic := false; font_color := None |}.

(** [styles.add_style(name, WD_STYLE_TYPE.PARAGRAPH)]: a name the document
    already has is refused. *)
Definition add_style (name : string) : step :=
  fun doc =>
    if has_style name doc
    then Raise (ValueError ("document already contains style '" +:+ name +:+ "'"))
    else Return {| styles := styles doc ++
                               [ {| style_name := name; base_style := None;
                                    font := empty_font |} ];
                   paragraphs := paragraphs doc;
                   footer := footer doc |}.

(** [doc.add_paragraph(text, style=...)], then the alignment if one is
    assigned. *)
Definition add_paragraph (content : string) (style_used : option string)
    (align : option WD_ALIGN_PARAGRAPH) : step :=
  fun doc =>
    let known := match style_used with
                 | Some name => has_style name doc
                 | None => true
                 end in
    if known
    then Return {| styles := styles doc;
                   paragraphs := paragraphs doc ++
                                   [ {| text := content; style := style_used;
                                        alignment := align |} ];
                   footer := footer doc |}
    else Raise (KeyError ("no style with name '" +:+
                          match style_used with Some name => name | None => "" end +:+
                          "'")).

Definition set_footer (content : string) (align : WD_ALIGN_PARAGRAPH) : step :=
  fun doc =>
    Return {| styles := styles doc;
              paragraphs := paragraphs doc;
              footer := {| text := content; style := style (footer doc);
                           alignment := Some align |} |}.

Definition set_font (name : string) (size : nat) (bold italic : bool)
    (color : option (nat * nat * nat)) (s : Style) : Style :=
  {| style_name := style_name s;
     base_style := base_style s;
     font := {| font_name := Some name; font_size := Some size;
                font_bold := bold; font_italic := italic; font_color := color |} |}.

Definition set_base (base : string) (s : Style) : Style :=
  {| style_name := style_name s; base_style := Some base; font := font s |}.

(** The marker that starts a source line, byte for byte as the source file
    has it. *)
Definition source_marker : string :=
  String "195" (String "162" (String "226" (String "130" (String "172"
    (String "194" (String "162" (String " " EmptyString))))))).

(** [for source in sources: doc.add_paragraph(marker + source, 'Source')]. *)
Fixpoint add_source_lines (sources : list string) : step :=
  match sources with
  | [] => fun doc => Return doc
  | source :: rest =>
      add_paragraph (source_marker +:+ source) (Some "Source") None >>>
      add_source_lines rest
  end.

(** [if sources and len(sources) > 0: ...]. *)
Definition add_sources (sources : option (list string)) : step :=
  match sources with
  | Some (first :: rest) =>
      add_paragraph "" None None >>>
      add_paragraph "Sources:" (Some "Heading") None >>>
      add_source_lines (first :: rest)
  | _ => fun doc => Return doc
  end.

(** "Set up document styles": the base style and the three styles of
    the renderer. *)
Definition define_styles : step :=
  modify_style "Normal"
    (fun s => {| style_name := style_name s; base_style := base_style s;
                 font := {| font_name := Some "Calibri"; font_size := Some 11;
                            font_bold := font_bold (font s);
                            font_italic := font_italic (font s);
                            font_color := font_color (font s) |} |}) >>>
  add_style "Title" >>>
  modify_style "Normal" (fun s => s) >>>
  modify_style "Title"
    (fun s => set_font "Calibri" 16 true false (Some (0, 0, 139)) (set_base "Normal" s)) >>>
  add_style "Heading" >>>
  modify_style "Normal" (fun s => s) >>>
  modify_style "Heading"
    (fun s => set_font "Calibri" 14 true false None (set_base "Normal" s)) >>>
  add_style "Source" >>>
  modify_style "Normal" (fun s => s) >>>
  modify_style "Source"
    (fun s => set_font "Calibri" 10 false true None (set_base "Normal" s)).

(** The title, the date and time, the line, the question and the answer. *)
Definition add_exchange (rt : Runtime) (question answer : string) : step :=
  add_paragraph "DDQ Response" (Some "Title") (Some CENTER) >>>
  add_paragraph ("Generated on: " +:+ rt_strftime rt "%Y-%m-%d %H:%M:%S")
    None (Some RIGHT) >>>
  add_paragraph (repeat_string "_" 80) None None >>>
  add_paragraph "Question:" (Some "Heading") None >>>
  add_paragraph question None None >>>
  add_paragraph "" None None >>>
  add_paragraph "Answer:" (Some "Heading") None >>>
  add_paragraph answer None None.

(** The document of [create_docx_document] at the time it is saved. *)
Definition docx_document (rt : Runtime) (lib : DocxLibrary)
    (question answer : string) (sources : option (list string))
    : Outcome Document :=
  (define_styles >>>
   add_exchange rt question answer >>>
   add_sources sources >>>
   set_footer "Hudson Advisors DDQ Assistant" CENTER)
  (new_document lib).

(** [create_docx_document(question, answer, sources=None)]: the bytes of the
    saved document. *)
Definition create_docx_document (rt : Runtime) (lib : DocxLibrary)
    (question answer : string) (sources : option (list string))
    : Outcome string :=
  match docx_document rt lib question answer sources with
  | Return doc => Return (save lib doc)
  | Raise e => Raise e
  end.

(** ** The vocabulary of the statements *)

(** Adding to a list of members: the list stays as it is when it has an
    equal member, and the value goes last otherwise. *)
Definition ordered_add (v : json) (s : list json) : list json :=
  if py_in v s then s else s ++ [v].

(** The context block and the source files with which step 1 ends; step 1
    always ends (lemma [retrieve_returns]). *)
Definition retrieved (rt : Runtime) (app : Services) (user_question : json)
    : string * source_set rt :=
  match snd (retrieve rt app user_question) with
  | Return found => found
  | Raise _ => (search_error_context, set_new (rt_set rt))
  end.

(** The messages the handler sends to the model for a prompt. *)
Definition messages_sent (rt : Runtime) (app : Services) (user_question : json)
    : list Message :=
  build_messages app (fst (retrieved rt app user_question)) user_question.

(** The outcome of the one call the handler makes on the model. *)
Definition completion_call (rt : Runtime) (app : Services) (user_question : json)
    : Outcome ChatCompletions :=
  client app (messages_sent rt app user_question) AZURE_OAI_MODEL_NAME 1500.

(** The fields of a response. *)
Definition field (name : string) (response : Response) : option json :=
  dict_get (body response) name.

(** The event is a call of [upload_document]. *)
Definition is_upload (ev : event) : bool :=
  match ev with
  | UploadCall _ _ _ => true
  | _ => false
  end.

(** No two entries of [l] are equal in Python's sense. *)
Fixpoint py_distinct (l : list json) : bool :=
  match l with
  | [] => true
  | v :: rest => negb (py_in v rest) && py_distinct rest
  end.

(** How often the name occurs in a list of sources. *)
Definition occurrences (name : string) (l : list json) : nat :=
  List.length (filter (py_eq (JStr name)) l).

(** The values in the order of their first occurrence. *)
Definition unique (values : list json) : list json :=
  fold_left (fun seen v => ordered_add v seen) values [].

(** The values of [sourceFile] that the loop adds to the set, in order; the
    loop stops at the first result it cannot process. *)
Fixpoint added_sources (results : list json) : list json :=
  match results with
  | [] => []
  | result :: rest =>
      match py_get result "content" (JStr ""),
            py_get result "sourceFile" (JStr "Unknown Source") with
      | Return _, Return source_file =>
          if hashable source_file then source_file :: added_sources rest else []
      | _, _ => []
      end
  end.

(** The value is a JSON object, a [dict] for Python. *)
Definition is_object (v : json) : bool :=
  match v with
  | JObj _ => true
  | _ => false
  end.

(** The three error responses of the handler. *)
Definition no_prompt_response : Response :=
  jsonify [("error", JStr "No prompt provided")] 400.
Definition model_failure_response : Response :=
  jsonify [("error", JStr "Failed to get response from AI model")] 500.
Definition server_error_response : Response :=
  jsonify [("error", JStr "An internal server error occurred")] 500.

(** The order of [sorted()] on file names. *)
Definition name_le (a b : json) : bool :=
  match a, b with
  | JStr s, JStr t => String.leb s t
  | _, _ => false
  end.

(** The list is in the order that [sorted()] gives. *)
Fixpoint sorted_names (l : list json) : bool :=
  match l with
  | a :: (b :: _) as rest => name_le a b && sorted_names rest
  | _ => true
  end.

(** No event of the trace is a call of [upload_document]. *)
Definition no_upload (t : list event) : bool :=
  forallb (fun ev => negb (is_upload ev)) t.

(** ** Runtimes, requests and services to run the handler on *)

(** A set that iterates in insertion order: one of the orders a hash table
    can produce. *)
Definition insertion_ordered_set : PySet.
Proof.
  refine {| pyset := list json;
            set_new := [];
            set_add := ordered_add;
            set_iter := fun s => s |}.
  - reflexivity.
  - intros v s H. unfold ordered_add. now rewrite H.
  - intros v s H. unfold ordered_add. rewrite H.
    apply Permutation_sym, Permutation_cons_append.
Defined.

(** A set that iterates from the newest member to the oldest: another such
    order. *)
Definition newest_first_set : PySet.
Proof.
  refine {| pyset := list json;
            set_new := [];
            set_add := fun v s => if py_in v s then s else v :: s;
            set_iter := fun s => s |}.
  - reflexivity.
  - intros v s H. now rewrite H.
  - intros v s H. now rewrite H.
Defined.

Definition sample_runtime : Runtime :=
  {| rt_set := insertion_ordered_set;
     rt_repr := fun _ => "<repr>";
     rt_urandom_hex := "0a1b2c3d";
     rt_strftime := fun _ => "2025-01-01 00:00:00" |}.

(** The mocks of [test_app.py]. *)
Definition mock_search_results : json :=
  JObj [ ("count", JInt 1);
         ("results", JArr [ JObj [ ("id", JStr "doc1");
                                   ("title", JStr "ESG Policy");
                                   ("content", JStr "Our ESG policy emphasizes responsible investment.");
                                   ("source", JStr "ESG Policy");
                                   ("sourceFile", JStr "ESG_Policy.pdf");
                                   ("score", JInt 1) ] ]) ].

Definition mock_completion : ChatCompletions :=
  {| choices := [ {| message_content :=
       JStr "Based on the ESG Policy, the fund emphasizes responsible investment." |} ] |}.

Definition mock_services : Services :=
  {| SYSTEM_PROMPT := "You are a helpful AI assistant.";
     search_service := Some (fun _ _ => ret mock_search_results);
     blob_service := Some (fun _ _ _ =>
       ret (JStr "https://example.blob.core.windows.net/container/document.docx"));
     client := fun _ _ _ => Return mock_completion |}.

Definition reversed_runtime : Runtime :=
  {| rt_set := newest_first_set;
     rt_repr := fun _ => "<repr>";
     rt_urandom_hex := "0a1b2c3d";
     rt_strftime := fun _ => "2025-01-01 00:00:00" |}.

(** The default template of python-docx, as far as the renderer looks at
    it: among its built-in styles are Normal and Title, and none is named
    Heading or Source. *)
Definition template_with_title : DocxLibrary :=
  {| default_styles := [ {| style_name := "Normal"; base_style := None;
                            font := empty_font |};
                         {| style_name := "Title"; base_style := Some "Normal";
                            font := empty_font |} ];
     save := fun doc => join nl (map text (paragraphs doc)) |}.

(** Services whose search and whose model both fail. *)
Definition failing_services : Services :=
  {| SYSTEM_PROMPT := "You are a helpful AI assistant.";
     search_service := Some (fun _ _ => raise (Exception "HttpResponseError" "index unavailable"));
     blob_service := None;
     client := fun _ _ _ => Raise (Exception "ClientAuthenticationError" "token expired") |}.

(** Services whose search fails and whose model answers. *)
Definition degraded_services : Services :=
  {| SYSTEM_PROMPT := "You are a helpful AI assistant.";
     search_service := Some (fun _ _ => raise (Exception "HttpResponseError" "index unavailable"));
     blob_service := None;
     client := fun _ _ _ => Return mock_completion |}.

(** The request of [test_app.py]. *)
Definition test_prompt : json := JStr "What is the fund's ESG policy?".
Definition test_body : dict := [("prompt", test_prompt); ("history", JArr [])].
Definition test_request : Request := {| get_json := Return (JObj test_body) |}.

Definition silent_services : Services :=
  {| SYSTEM_PROMPT := "You are a helpful AI assistant.";
     search_service := None;
     blob_service := None;
     client := fun _ _ _ => Return {| choices := [] |} |}.

Definition snippet (source_file content_text : string) : json :=
  JObj [ ("id", JStr "doc"); ("content", JStr content_text);
         ("sourceFile", JStr source_file); ("score", JInt 1) ].

Definition services_finding (results : list json) : Services :=
  {| SYSTEM_PROMPT := "You are a helpful AI assistant.";
     search_service :=
       Some (fun _ _ => ret (JObj [("count", JInt 2); ("results", JArr results)]));
     blob_service := None;
     client := fun _ _ _ => Return mock_completion |}.

Definition duplicate_results : list json :=
  [ snippet "ESG_Policy.pdf" "Our ESG policy emphasizes responsible investment.";
    snippet "ESG_Policy.pdf" "The policy is reviewed every year." ].

Definition unsorted_results : list json :=
  [ snippet "b.pdf" "second file"; snippet "a.pdf" "first file" ].

(** A container that cannot be reached. *)
Definition unreachable_container : ContainerClient :=
  fun _ => Raise (Exception "ServiceRequestError" "storage account unreachable").

Definition services_storing (container_client : ContainerClient) : Services :=
  {| SYSTEM_PROMPT := "You are a helpful AI assistant.";
     search_service := Some (fun _ _ => ret mock_search_results);
     blob_service := Some (BlobStorageService.upload_document container_client);
     client := fun _ _ _ => Return mock_completion |}.

(** An index that answers every query with the same documents. *)
Definition index_with (documents : list dict) : SearchClient :=
  fun _ _ _ _ _ _ _ =>
    Return {| yielded := documents;
              iteration_error := None;
              get_count := Return (JInt (Z.of_nat (List.length documents))) |}.

(** The services of production: [AzureSearchService] on an index. *)
Definition services_searching (search_client : SearchClient) : Services :=
  {| SYSTEM_PROMPT := "You are a helpful AI assistant.";
     search_service :=
       Some (fun query_text top =>
               AzureSearchService.search_documents search_client query_text None top);
     blob_service := None;
     client := fun _ _ _ => Return mock_completion |}.

(** A document of the index with neither [content] nor [sourceFile]. *)
Definition unlabelled_document : dict :=
  [("id", JStr "doc1"); ("@search.score", JInt 1)].

(** ** More vocabulary: the trace and the texts of a request *)

(** The event is a call of a service, not a printed line. *)
Definition is_service_call (ev : event) : bool :=
  match ev with
  | Print _ => false
  | _ => true
  end.

(** The calls of a trace, in order. *)
Definition service_calls (t : list event) : list event :=
  filter is_service_call t.

(** A result the loop of step 1 can process: a dict whose source file can
    enter a set. *)
Definition well_formed_result (result : json) : bool :=
  match result with
  | JObj d => hashable (dict_get_default d "sourceFile" (JStr "Unknown Source"))
  | _ => false
  end.

(** The block of the context that renders one result. *)
Definition result_block (rt : Runtime) (result : json) : string :=
  match result with
  | JObj d =>
      snippet_block rt (dict_get_default d "sourceFile" (JStr "Unknown Source"))
                       (dict_get_default d "content" (JStr ""))
  | _ => ""
  end.

Definition result_blocks (rt : Runtime) (results : list json) : string :=
  fold_right (fun result blocks => result_block rt result +:+ blocks) "" results.

(** The value is a [str]. *)
Definition is_string (v : json) : bool :=
  match v with
  | JStr _ => true
  | _ => false
  end.

(** The number of code points of a text. *)
Fixpoint count_codepoints (s : string) : nat :=
  match s with
  | EmptyString => 0
  | String c rest =>
      (if is_continuation c then 0 else 1) + count_codepoints rest
  end.

(** The character occurs in the text. *)
Fixpoint has_char (c : ascii) (s : string) : bool :=
  match s with
  | EmptyString => false
  | String c' rest => Ascii.eqb c' c || has_char c rest
  end.

(** The name and the content of the simulated document of step 4. *)
Definition simulated_blob_name (rt : Runtime) (fragment : string) : string :=
  "generated_docs/response_" +:+ fragment +:+ "_" +:+ rt_urandom_hex rt +:+ ".docx".

Definition simulated_content (rt : Runtime) (user_question ai_response_text : json)
    (sources : string) : string :=
  "Question: " +:+ py_str rt user_question +:+ nl +:+ nl +:+
  "Answer: " +:+ py_str rt ai_response_text +:+ nl +:+ nl +:+
  "Sources: " +:+ sources.

(** The upload that step 4 makes, if it makes one: none when the name or
    the content cannot be built, or the content cannot be encoded. *)
Definition upload_made (rt : Runtime) (user_question ai_response_text : json)
    (source_files : source_set rt) : list event :=
  match question_fragment user_question, sources_text rt source_files with
  | Return fragment, Return sources =>
      match encode_utf8 (simulated_content rt user_question ai_response_text sources) with
      | Return content =>
          [ UploadCall content (simulated_blob_name rt fragment) "text/plain" ]
      | Raise _ => []
      end
  | _, _ => []
  end.

(** The source file of a result, as the loop reads it. *)
Definition result_source (result : json) : json :=
  match result with
  | JObj d => dict_get_default d "sourceFile" (JStr "Unknown Source")
  | _ => JNull
  end.

(** Results of which the first that cannot be processed comes after some
    that can. *)
Definition partly_broken_results : list json :=
  [ snippet "a.pdf" "first file"; JStr "not a document"; snippet "b.pdf" "second file" ].

(** An index document whose [sourceFile] is null. *)
Definition null_source_results : list json :=
  [ JObj [ ("id", JStr "doc"); ("content", JStr "text of the document");
           ("sourceFile", JNull); ("score", JInt 1) ] ].

Definition services_finding_and_storing (results : list json) : Services :=
  {| SYSTEM_PROMPT := "You are a helpful AI assistant.";
     search_service :=
       Some (fun _ _ => ret (JObj [("count", JInt 2); ("results", JArr results)]));
     blob_service := Some (fun _ _ _ =>
       ret (JStr "https://example.blob.core.windows.net/container/document.docx"));
     client := fun _ _ _ => Return mock_completion |}.

(** ** More vocabulary: the search service *)

(** The result of the index has the two keys that [search_documents] reads
    without a default. *)
Definition has_required_keys (result : dict) : bool :=
  match dict_get result "id", dict_get result "@search.score" with
  | Some _, Some _ => true
  | _, _ => false
  end.

(** The document with its seven keys, the optional ones with their
    defaults. *)
Definition document_of (result : dict) : json :=
  JObj [ ("id", dict_get_default result "id" JNull);
         ("title", dict_get_default result "title" (JStr "Untitled"));
         ("content", dict_get_default result "content" (JStr ""));
         ("source", dict_get_default result "source" (JStr ""));
         ("sourceFile", dict_get_default result "sourceFile" (JStr ""));
         ("score", dict_get_default result "@search.score" JNull);
         ("captions", dict_get_default result "@search.captions" (JArr [])) ].

(** An index with one complete document and one without an id. *)
Definition index_with_a_broken_document : SearchClient :=
  index_with [ [("id", JStr "doc1"); ("@search.score", JInt 2);
                ("sourceFile", JStr "a.pdf")];
               [("@search.score", JInt 1); ("sourceFile", JStr "b.pdf")] ].

(** An index that cannot be reached. *)
Definition unreachable_index : SearchClient :=
  fun _ _ _ _ _ _ _ => Raise (Exception "HttpResponseError" "index unavailable").

(** ** The constructors of the services and the start of the application *)

(** [os.getenv]. *)
Definition Env : Type := string -> option string.

(** The truth value of a setting: a string that is not empty. *)
Definition given (setting : option string) : bool :=
  match setting with
  | Some s => negb (String.eqb s "")
  | None => false
  end.

(** [argument or os.getenv(name)]. *)
Definition or_else (argument fallback : option string) : option string :=
  if given argument then argument else fallback.

(** The text of a setting in an f-string. *)
Definition setting_text (setting : option string) : string :=
  match setting with
  | Some s => s
  | None => "None"
  end.

(** [try: m  except cls as e: h e]: only the exceptions that the clause
    names are handled. *)
Definition try_except_only {E A} (catches : exn -> bool) (m : W E A)
    (h : exn -> W E A) : W E A :=
  match m with
  | (t, Raise e) =>
      if catches e then let '(t', r) := h e in (t ++ t', r) else (t, Raise e)
  | done => done
  end.

(** An [AzureSearchService] object. *)
Record AzureSearchServiceObject : Type := {
  search_service_name : option string;
  search_index_name : option string;
  search_api_key : option string;
  search_endpoint : string;
  search_client_of : SearchClient
}.

(** [AzureSearchService.__init__]; [make_client endpoint index key] is
    [SearchClient(endpoint, index_name, AzureKeyCredential(key))]. *)
Definition AzureSearchService_init (env : Env)
    (make_client : string -> string -> string -> Outcome SearchClient)
    (service_name index_name api_key : option string)
    : Outcome AzureSearchServiceObject :=
  let service_name := or_else service_name (env "AZURE_SEARCH_SERVICE_NAME") in
  let index_name := or_else index_name (env "AZURE_SEARCH_INDEX_NAME") in
  let api_key := or_else api_key (env "AZURE_SEARCH_API_KEY") in
  if negb (given service_name && given index_name && given api_key)
  then Raise (ValueError "Missing required Azure AI Search configuration")
  else
    let endpoint := "https://" +:+ setting_text service_name +:+ ".search.windows.net" in
    match make_client endpoint (setting_text index_name) (setting_text api_key) with
    | Raise e => Raise e
    | Return search_client =>
        Return {| search_service_name := service_name;
                  search_index_name := index_name;
                  search_api_key := api_key;
                  search_endpoint := endpoint;
                  search_client_of := search_client |}
    end.

(** What the storage SDK gives: a download, a container, a service client
    and the two ways to make one. *)
Record StorageStreamDownloader : Type := { readall : Outcome string }.

Record ContainerHandle : Type := {
  get_container_properties : Outcome unit;
  create_container : Outcome unit;
  get_blob_client : ContainerClient;
  download_blob : string -> Outcome StorageStreamDownloader;
  list_blobs : option string -> Outcome (list string)
}.

Record BlobServiceClient : Type := {
  get_container_client : string -> Outcome ContainerHandle
}.

Record BlobSdk : Type := {
  from_connection_string : string -> Outcome BlobServiceClient;
  from_account_url : string -> Outcome BlobServiceClient
}.

(** The calls of the constructor on the SDK. *)
Inductive sdk_call : Type :=
  | FromConnectionString (connection_string : string)
  | FromAccountUrl (account_url : string)
  | GetContainerClient (container_name : string)
  | GetContainerProperties
  | CreateContainer.

(** A [BlobStorageService] object. *)
Record BlobStorageServiceObject : Type := {
  storage_account_name : option string;
  container_name : option string;
  connection_string : option string;
  container_client_of : ContainerHandle
}.

(** [BlobStorageService.__init__]. *)
Definition BlobStorageService_init (env : Env) (sdk : BlobSdk)
    (account_name container connection : option string)
    : W sdk_call BlobStorageServiceObject :=
  let account_name := or_else account_name (env "AZURE_STORAGE_ACCOUNT_NAME") in
  let container := or_else container (env "AZURE_STORAGE_CONTAINER_NAME") in
  let connection := or_else connection (env "AZURE_STORAGE_CONNECTION_STRING") in
  if negb (given container)
  then raise (ValueError "Missing required Blob Storage container name")
  else
    blob_service_client <-
      (if given connection then
         emit (FromConnectionString (setting_text connection)) ;;
         lift (from_connection_string sdk (setting_text connection))
       else if given account_name then
         let account_url :=
           "https://" +:+ setting_text account_name +:+ ".blob.core.windows.net" in
         emit (FromAccountUrl account_url) ;;
         lift (from_account_url sdk account_url)
       else
         raise (ValueError
                  "Either storage_account_name or connection_string must be provided")) ;;
    emit (GetContainerClient (setting_text container)) ;;
    container_client <-
      lift (get_container_client blob_service_client (setting_text container)) ;;
    try_except
      (emit GetContainerProperties ;;
       lift (get_container_properties container_client))
      (fun _ => emit CreateContainer ;; lift (create_container container_client)) ;;
    ret {| storage_account_name := account_name;
           container_name := container;
           connection_string := connection;
           container_client_of := container_client |}.

(** [download_document], [list_documents] and [get_document_url]; the
    events are the lines they print. *)
Definition download_document (container_client : ContainerHandle)
    (blob_name : string) : W string json :=
  try_except
    (lift (get_blob_client container_client blob_name) ;;
     download <- lift (download_blob container_client blob_name) ;;
     content <- lift (readall download) ;;
     ret (JStr content))
    (fun e =>
       emit ("Error downloading document: " +:+ exn_text e) ;;
       ret JNull).

Definition list_documents (container_client : ContainerHandle)
    (prefix : option string) : W string json :=
  try_except
    (blobs <- lift (list_blobs container_client prefix) ;;
     ret (JArr (map JStr blobs)))
    (fun e =>
       emit ("Error listing documents: " +:+ exn_text e) ;;
       ret JNull).

Definition get_document_url (container_client : ContainerHandle)
    (blob_name : string) : W string json :=
  try_except
    (blob_client <- lift (get_blob_client container_client blob_name) ;;
     ret (JStr (url blob_client)))
    (fun e =>
       emit ("Error getting document URL: " +:+ exn_text e) ;;
       ret JNull).

(** What the start of the application reads from its host: the
    environment, the file of the system prompt, the SDKs, and which class
    of exceptions is a subclass of which. *)
Record Host : Type := {
  getenv : Env;
  read_system_prompt : Outcome string;
  make_search_client : string -> string -> string -> Outcome SearchClient;
  blob_sdk : BlobSdk;
  issubclass : string -> string -> bool
}.

(** The exception is an instance of the class. *)
Definition isinstance (host : Host) (cls : string) (e : exn) : bool :=
  String.eqb (exn_class e) cls || issubclass host (exn_class e) cls.

(** What the start of the application does: lines it prints, calls on the
    storage SDK. *)
Inductive startup_event : Type :=
  | Printed (line : string)
  | Sdk (call : sdk_call).

(** Lines 31 to 38 of [app.py]: the system prompt. *)
Definition load_system_prompt (host : Host) : W startup_event string :=
  try_except_only (isinstance host "FileNotFoundError")
    (text <- lift (read_system_prompt host) ;;
     emit (Printed "System prompt loaded successfully.") ;;
     ret text)
    (fun _ =>
       emit (Printed "Warning: system_prompt.txt not found. Using default prompt.") ;;
       ret "You are a helpful AI assistant.").

(** Lines 43 to 48: the search service, or [None]. *)
Definition start_search_service (host : Host)
    : W startup_event (option AzureSearchServiceObject) :=
  try_except_only (isinstance host "ValueError")
    (service <- lift (AzureSearchService_init (getenv host) (make_search_client host)
                        None None None) ;;
     emit (Printed "Azure AI Search service initialized.") ;;
     ret (Some service))
    (fun e =>
       emit (Printed ("Error initializing Azure AI Search: " +:+ exn_text e +:+
                      ". Search functionality will be disabled.")) ;;
       ret None).

(** Lines 50 to 55: the blob service, or [None]. *)
Definition start_blob_service (host : Host)
    : W startup_event (option BlobStorageServiceObject) :=
  try_except_only (isinstance host "ValueError")
    (service <- relabel Sdk (BlobStorageService_init (getenv host) (blob_sdk host)
                               None None None) ;;
     emit (Printed "Azure Blob Storage service initialized.") ;;
     ret (Some service))
    (fun e =>
       emit (Printed ("Error initializing Azure Blob Storage: " +:+ exn_text e +:+
                      ". Document upload will be disabled.")) ;;
       ret None).

(** The module-level names of [app.py] after lines 31 to 55, as the handler
    reads them; [openai_client] is the client of [openai_service.py]. *)
Definition start_application (host : Host) (openai_client : ChatCompletionsClient)
    : W startup_event Services :=
  system_prompt <- load_system_prompt host ;;
  search <- start_search_service host ;;
  blob <- start_blob_service host ;;
  ret {| SYSTEM_PROMPT := system_prompt;
         search_service :=
           match search with
           | Some service =>
               Some (fun query_text top =>
                       AzureSearchService.search_documents (search_client_of service)
                         query_text None top)
           | None => None
           end;
         blob_service :=
           match blob with
           | Some service =>
               Some (BlobStorageService.upload_document
                       (get_blob_client (container_client_of service)))
           | None => None
           end;
         client := openai_client |}.

(** The settings of the blob service in effect: the argument, or else the
    variable of the environment. *)
Definition account_in_effect (env : Env) (argument : option string) : option string :=
  or_else argument (env "AZURE_STORAGE_ACCOUNT_NAME").
Definition container_in_effect (env : Env) (argument : option string) : option string :=
  or_else argument (env "AZURE_STORAGE_CONTAINER_NAME").
Definition connection_in_effect (env : Env) (argument : option string) : option string :=
  or_else argument (env "AZURE_STORAGE_CONNECTION_STRING").

(** The call that makes the service client, with its outcome: by the
    connection string when there is one, else by the account name. *)
Definition service_client_call (env : Env) (sdk : BlobSdk)
    (account_name connection : option string)
    : option (sdk_call * Outcome BlobServiceClient) :=
  if given (connection_in_effect env connection) then
    Some (FromConnectionString (setting_text (connection_in_effect env connection)),
          from_connection_string sdk (setting_text (connection_in_effect env connection)))
  else if given (account_in_effect env account_name) then
    let account_url := "https://" +:+ setting_text (account_in_effect env account_name)
                       +:+ ".blob.core.windows.net" in
    Some (FromAccountUrl account_url, from_account_url sdk account_url)
  else None.

(** A container of which nothing is known yet and that can be created. *)
Definition absent_container : ContainerHandle :=
  {| get_container_properties := Raise (Exception "ResourceNotFoundError" "ContainerNotFound");
     create_container := Return tt;
     get_blob_client := unreachable_container;
     download_blob := fun _ => Raise (Exception "ResourceNotFoundError" "BlobNotFound");
     list_blobs := fun _ => Return [] |}.

Definition sample_sdk : BlobSdk :=
  {| from_connection_string :=
       fun _ => Return {| get_container_client := fun _ => Return absent_container |};
     from_account_url :=
       fun _ => Raise (Exception "ClientAuthenticationError" "no credential") |}.

Definition storage_environment : Env :=
  fun name =>
    if String.eqb name "AZURE_STORAGE_CONTAINER_NAME" then Some "ddq"
    else if String.eqb name "AZURE_STORAGE_CONNECTION_STRING" then Some "UseDevelopmentStorage=true"
    else if String.eqb name "AZURE_STORAGE_ACCOUNT_NAME" then Some "ddqaccount"
    else None.

Definition empty_environment : Env := fun _ => None.

(** A host without settings, whose prompt file is there. *)
Definition bare_host : Host :=
  {| getenv := empty_environment;
     read_system_prompt := Return "You answer due diligence questionnaires.";
     make_search_client := fun _ _ _ => Return unreachable_index;
     blob_sdk := sample_sdk;
     issubclass := fun _ _ => false |}.

(** A host whose storage is configured but refuses to create the
    container. *)
Definition locked_container : ContainerHandle :=
  {| get_container_properties := Raise (Exception "ResourceNotFoundError" "ContainerNotFound");
     create_container := Raise (Exception "HttpResponseError" "AuthorizationFailure");
     get_blob_client := unreachable_container;
     download_blob := fun _ => Raise (Exception "ResourceNotFoundError" "BlobNotFound");
     list_blobs := fun _ => Return [] |}.

Definition locked_host : Host :=
  {| getenv := storage_environment;
     read_system_prompt := Raise (Exception "FileNotFoundError" "system_prompt.txt");
     make_search_client := fun _ _ _ => Return unreachable_index;
     blob_sdk :=
       {| from_connection_string :=
            fun _ => Return {| get_container_client := fun _ => Return locked_container |};
          from_account_url :=
            fun _ => Raise (Exception "ClientAuthenticationError" "no credential") |};
     issubclass := fun _ _ => false |}.

(** ** document_generator.py: the upload of the rendered document *)

(** [c.isalnum()] for an ASCII character: a digit or a letter. *)
Definition ascii_isalnum (c : ascii) : bool :=
  let n := nat_of_ascii c in
  (Nat.leb 48 n && Nat.leb n 57) ||
  (Nat.leb 65 n && Nat.leb n 90) ||
  (Nat.leb 97 n && Nat.leb n 122).

(** The byte is an ASCII character. *)
Definition is_ascii (c : ascii) : bool := Nat.ltb (nat_of_ascii c) 128.

(** [c.isalnum()] for a code point; which code points beyond ASCII are
    letters or numbers is a table of Unicode, a parameter here. *)
Definition py_isalnum (unicode_isalnum : string -> bool) (codepoint : string) : bool :=
  match codepoint with
  | String c EmptyString =>
      if is_ascii c then ascii_isalnum c else unicode_isalnum codepoint
  | _ => unicode_isalnum codepoint
  end.

(** ["".join(parts)]. *)
Definition concat_strings (parts : list string) : string :=
  fold_right String.append "" parts.

(** ["".join(c if c.isalnum() else "_" for c in question[:30])]. *)
Definition safe_question (unicode_isalnum : string -> bool) (question : string) : string :=
  concat_strings
    (map (fun c => if py_isalnum unicode_isalnum c then c else "_")
         (codepoints (take_codepoints 30 question))).

Definition docx_content_type : string :=
  "application/vnd.openxmlformats-officedocument.wordprocessingml.document".

(** The name under which the rendered document is stored. *)
Definition docx_blob_name (rt : Runtime) (unicode_isalnum : string -> bool)
    (question : string) : string :=
  "ddq_responses/" +:+ rt_strftime rt "%Y%m%d%H%M%S" +:+ "_" +:+
  safe_question unicode_isalnum question +:+ ".docx".

(** [generate_and_upload_docx(question, answer, sources, blob_service)]. *)
Definition generate_and_upload_docx (rt : Runtime) (lib : DocxLibrary)
    (unicode_isalnum : string -> bool) (question answer : string)
    (sources : option (list string))
    (upload_document : string -> string -> string -> W string json)
    : W event json :=
  try_except
    (let blob_name := docx_blob_name rt unicode_isalnum question in
     docx_bytes <- lift (create_docx_document rt lib question answer sources) ;;
     emit (UploadCall docx_bytes blob_name docx_content_type) ;;
     document_url <- relabel Print
                       (upload_document docx_bytes blob_name docx_content_type) ;;
     ret document_url)
    (fun e =>
       print ("Error generating and uploading document: " +:+ exn_text e) ;;
       ret JNull).

(** Every character of the text passes the test. *)
Fixpoint all_chars (test : ascii -> bool) (s : string) : bool :=
  match s with
  | EmptyString => true
  | String c rest => test c && all_chars test rest
  end.

(** The first [n] characters of a text. *)
Fixpoint take_chars (n : nat) (s : string) : string :=
  match n, s with
  | S k, String c rest => String c (take_chars k rest)
  | _, _ => EmptyString
  end.

(** A text, character by character. *)
Fixpoint map_chars (f : ascii -> ascii) (s : string) : string :=
  match s with
  | EmptyString => EmptyString
  | String c rest => String (f c) (map_chars f rest)
  end.

(** The first of the three styles of the renderer that the template
    already has. *)
Definition first_taken_style (lib : DocxLibrary) : option string :=
  if has_style "Title" (new_document lib) then Some "Title"
  else if has_style "Heading" (new_document lib) then Some "Heading"
  else if has_style "Source" (new_document lib) then Some "Source"
  else None.

(** An environment with the settings of another search service. *)
Definition search_environment : Env :=
  fun name =>
    if String.eqb name "AZURE_SEARCH_SERVICE_NAME" then Some "other"
    else if String.eqb name "AZURE_SEARCH_INDEX_NAME" then Some ""
    else None.

(** An environment with the three settings of the search service. *)
Definition configured_search_environment : Env :=
  fun name =>
    if String.eqb name "AZURE_SEARCH_SERVICE_NAME" then Some "ddq-search"
    else if String.eqb name "AZURE_SEARCH_INDEX_NAME" then Some "ddq-index"
    else if String.eqb name "AZURE_SEARCH_API_KEY" then Some "secret"
    else None.

(** ** The monad *)

Lemma bind_return {E A B} (a : A) (k : A -> W E B) :
  bind (lift (Return a)) k = k a.
Proof. unfold bind, lift. now destruct (k a). Qed.

Lemma bind_raise {E A B} (e : exn) (k : A -> W E B) :
  bind (lift (@Raise A e)) k = ([], Raise e).
Proof. reflexivity. Qed.

Lemma bind_run {E A B} (t : list E) (a : A) (k : A -> W E B) :
  bind (t, Return a) k = (t ++ fst (k a), snd (k a)).
Proof. unfold bind. now destruct (k a). Qed.

Lemma try_except_return {E A} (t : list E) (a : A) (h : exn -> W E A) :
  try_except (t, Return a) h = (t, Return a).
Proof. reflexivity. Qed.

Lemma try_except_raise {E A} (t : list E) (e : exn) (h : exn -> W E A) :
  try_except (t, Raise e) h = (t ++ fst (h e), snd (h e)).
Proof. unfold try_except. now destruct (h e). Qed.

Lemma pair_eta {A B} (p : A * B) : p = (fst p, snd p).
Proof. now destruct p. Qed.

(** ** The stages of the handler *)

Section Stages.

Variable rt : Runtime.
Variable app : Services.

(** Step 1 never raises. *)
Lemma retrieve_returns (user_question : json) :
  retrieve rt app user_question =
  (fst (retrieve rt app user_question), Return (retrieved rt app user_question)).
Proof.
  unfold retrieved. unfold retrieve.
  destruct (search_service app) as [search|]; [|reflexivity].
  unfold attempt. rewrite bind_run. cbn [fst snd].
  match goal with |- context [snd (bind ?m ?k)] => destruct (snd (bind m k)) as [results|e] end.
  - destruct (use_search_results rt results) as [files [ctx|e]]; reflexivity.
  - reflexivity.
Qed.

(** Step 3: the call, and what is printed when it fails. *)
Lemma complete_run (messages : list Message) :
  complete app messages =
  match client app messages AZURE_OAI_MODEL_NAME 1500 with
  | Return completion => ([CompletionCall messages], Return (answer_text completion))
  | Raise e =>
      ([CompletionCall messages; Print ("Error calling Azure OpenAI: " +:+ exn_text e)],
       Raise e)
  end.
Proof.
  unfold complete, get_openai_completion.
  destruct (client app messages AZURE_OAI_MODEL_NAME 1500); reflexivity.
Qed.

(** Step 4 never raises. *)
Lemma store_document_returns (user_question ai_response_text : json)
    (source_files : source_set rt) :
  exists document_url,
    snd (store_document rt app user_question ai_response_text source_files)
    = Return document_url.
Proof.
  unfold store_document.
  destruct (blob_service app) as [upload|]; [|now exists JNull].
  destruct (upload_simulated_document rt upload user_question ai_response_text
              source_files) as [t [document_url|e]].
  - now exists document_url.
  - now exists JNull.
Qed.

(** The response to a prompt whose completion call raises. *)
Lemma answer_question_failed (user_question : json) (e : exn) :
  completion_call rt app user_question = Raise e ->
  answer_question rt app user_question =
  (fst (retrieve rt app user_question) ++
     [ CompletionCall (messages_sent rt app user_question);
       Print ("Error calling Azure OpenAI: " +:+ exn_text e);
       Print ("Error calling Azure OpenAI: " +:+ exn_text e) ],
   Return (jsonify [("error", JStr "Failed to get response from AI model")] 500)).
Proof.
  intros H. unfold answer_question.
  rewrite (retrieve_returns user_question), bind_run.
  unfold completion_call, messages_sent in H.
  destruct (retrieved rt app user_question) as [search_context source_files] eqn:R.
  unfold messages_sent. rewrite R.
  cbn [fst snd] in *. unfold attempt. rewrite complete_run, H, bind_run.
  reflexivity.
Qed.

(** The response to a prompt whose completion call returns. *)
Lemma answer_question_answered (user_question : json) (completion : ChatCompletions) :
  completion_call rt app user_question = Return completion ->
  exists document_url,
    snd (store_document rt app user_question (answer_text completion)
           (snd (retrieved rt app user_question))) = Return document_url /\
    answer_question rt app user_question =
    (fst (retrieve rt app user_question) ++
       CompletionCall (messages_sent rt app user_question) ::
       fst (store_document rt app user_question (answer_text completion)
              (snd (retrieved rt app user_question))),
     Return (jsonify
               [ ("ai_response", answer_text completion);
                 ("document_url", document_url);
                 ("sources", JArr (set_iter (rt_set rt)
                                     (snd (retrieved rt app user_question)))) ]
               200)).
Proof.
  intros H.
  destruct (store_document_returns user_question (answer_text completion)
              (snd (retrieved rt app user_question))) as [document_url U].
  exists document_url. split; [exact U|].
  unfold answer_question.
  rewrite (retrieve_returns user_question), bind_run.
  unfold completion_call, messages_sent in H.
  unfold messages_sent.
  destruct (retrieved rt app user_question) as [search_context source_files] eqn:R.
  cbn [fst snd] in *. unfold attempt. rewrite complete_run, H, bind_run.
  cbn [fst snd].
  rewrite (pair_eta (store_document rt app user_question (answer_text completion)
                       source_files)), U, bind_run.
  cbn [fst snd ret List.app]. rewrite app_nil_r. reflexivity.
Qed.

(** Steps 1 to 5 never raise. *)
Lemma answer_question_returns (user_question : json) :
  exists response, snd (answer_question rt app user_question) = Return response.
Proof.
  destruct (completion_call rt app user_question) as [completion|e] eqn:H.
  - destruct (answer_question_answered user_question completion H) as (u & _ & E).
    rewrite E. now eexists.
  - rewrite (answer_question_failed user_question e H). now eexists.
Qed.

(** A request whose body is an object with a true prompt is answered by
    steps 1 to 5. *)
Lemma chat_handler_prompt (request : Request) (d : dict) (user_question : json) :
  get_json request = Return (JObj d) ->
  dict_get d "prompt" = Some user_question ->
  truthy user_question = true ->
  chat_handler rt app request = answer_question rt app user_question.
Proof.
  intros G P T. unfold chat_handler.
  rewrite G, bind_return. cbn [py_get]. rewrite P, bind_return, T. cbn [negb].
  destruct (answer_question_returns user_question) as [response R].
  rewrite (pair_eta (answer_question rt app user_question)), R.
  reflexivity.
Qed.

(** The handler answers every request. *)
Lemma chat_handler_returns (request : Request) :
  exists response, snd (chat_handler rt app request) = Return response.
Proof.
  unfold chat_handler.
  destruct (get_json request) as [data|e]; [|now eexists].
  rewrite bind_return.
  destruct (py_get data "prompt" JNull) as [user_question|e]; [|now eexists].
  rewrite bind_return.
  destruct (truthy user_question); cbn [negb]; [|now eexists].
  destruct (answer_question_returns user_question) as [response R].
  rewrite (pair_eta (answer_question rt app user_question)), R.
  now exists response.
Qed.

End Stages.

(** ** Sets of source files *)

Lemma py_eq_sym (a b : json) : py_eq a b = py_eq b a.
Proof.
  destruct a, b; cbn; try reflexivity.
  - now destruct b, b0.
  - apply Z.eqb_sym.
  - apply Z.eqb_sym.
  - apply Z.eqb_sym.
  - apply String.eqb_sym.
Qed.

Lemma py_eq_name (name : string) (v : json) :
  py_eq (JStr name) v = true -> v = JStr name.
Proof.
  destruct v; cbn; try discriminate.
  intros H. apply String.eqb_eq in H. now subst.
Qed.

Lemma py_in_permutation (v : json) (l l' : list json) :
  Permutation l l' -> py_in v l = py_in v l'.
Proof.
  unfold py_in. induction 1; cbn.
  - reflexivity.
  - now rewrite IHPermutation.
  - now rewrite !orb_assoc, (orb_comm (py_eq v y)).
  - congruence.
Qed.

Lemma py_distinct_permutation (l l' : list json) :
  Permutation l l' -> py_distinct l = py_distinct l'.
Proof.
  induction 1; cbn.
  - reflexivity.
  - now rewrite IHPermutation, (py_in_permutation x l l').
  - fold (py_in x l) (py_in y l). rewrite (py_eq_sym y x).
    destruct (py_eq x y), (py_in x l), (py_in y l), (py_distinct l); reflexivity.
  - congruence.
Qed.

Lemma py_in_absent (v : json) (l : list json) :
  py_in v l = false -> filter (py_eq v) l = [].
Proof.
  unfold py_in. induction l as [|x rest IH]; cbn; [reflexivity|].
  intros H. apply orb_false_iff in H as [H1 H2].
  rewrite H1. now apply IH.
Qed.

Lemma py_distinct_occurrences (name : string) (l : list json) :
  py_distinct l = true -> occurrences name l <= 1.
Proof.
  unfold occurrences.
  induction l as [|x rest IH]; cbn [filter py_distinct List.length]; [lia|].
  intros H. apply andb_true_iff in H as [H1 H2].
  destruct (py_eq (JStr name) x) eqn:E.
  - apply py_eq_name in E. subst x.
    apply negb_true_iff in H1. rewrite (py_in_absent _ _ H1). cbn. lia.
  - now apply IH.
Qed.

Lemma ordered_add_distinct (v : json) (l : list json) :
  py_distinct l = true -> py_distinct (ordered_add v l) = true.
Proof.
  intros H. unfold ordered_add.
  destruct (py_in v l) eqn:E; [exact H|].
  rewrite (py_distinct_permutation (l ++ [v]) (v :: l)).
  - cbn. now rewrite E, H.
  - apply Permutation_sym, Permutation_cons_append.
Qed.

Lemma ordered_add_permutation (v : json) (l l' : list json) :
  Permutation l l' -> Permutation (ordered_add v l) (ordered_add v l').
Proof.
  intros H. unfold ordered_add.
  rewrite (py_in_permutation v l l' H).
  destruct (py_in v l'); [exact H|].
  now apply Permutation_app_tail.
Qed.

Section Sets.

Variable S : PySet.

(** Adding to a set is adding to the list of its members. *)
Lemma set_add_ordered (v : json) (s : pyset S) :
  Permutation (set_iter S (set_add S v s)) (ordered_add v (set_iter S s)).
Proof.
  unfold ordered_add.
  destruct (py_in v (set_iter S s)) eqn:E.
  - now rewrite (set_add_member S v s E).
  - rewrite (set_add_fresh S v s E). apply Permutation_cons_append.
Qed.

Lemma set_add_distinct (v : json) (s : pyset S) :
  py_distinct (set_iter S s) = true ->
  py_distinct (set_iter S (set_add S v s)) = true.
Proof.
  intros H.
  rewrite (py_distinct_permutation _ _ (set_add_ordered v s)).
  now apply ordered_add_distinct.
Qed.

End Sets.

(** ** Step 1: retrieval *)

Lemma call_then_service {A} (ev : event) (m : W string A) :
  (emit ev ;; relabel Print m) = (ev :: map Print (fst m), snd m).
Proof. reflexivity. Qed.

Section Retrieval.

Variable rt : Runtime.
Variable app : Services.

Lemma collect_snippets_sources (results : list json) :
  forall (search_context : string) (source_files : source_set rt) (seen : list json),
    Permutation (set_iter (rt_set rt) source_files) seen ->
    Permutation
      (set_iter (rt_set rt) (fst (collect_snippets rt results search_context source_files)))
      (fold_left (fun seen v => ordered_add v seen) (added_sources results) seen).
Proof.
  induction results as [|result rest IH]; intros search_context source_files seen H.
  - exact H.
  - cbn [collect_snippets added_sources].
    destruct (py_get result "content" (JStr "")) as [content_snippet|e]; [|exact H].
    destruct (py_get result "sourceFile" (JStr "Unknown Source")) as [source_file|e];
      [|exact H].
    destruct (hashable source_file); [|exact H].
    cbn [fold_left]. apply IH.
    rewrite (set_add_ordered (rt_set rt) source_file source_files).
    now apply ordered_add_permutation.
Qed.

Lemma collect_snippets_distinct (results : list json) :
  forall (search_context : string) (source_files : source_set rt),
    py_distinct (set_iter (rt_set rt) source_files) = true ->
    py_distinct
      (set_iter (rt_set rt) (fst (collect_snippets rt results search_context source_files)))
    = true.
Proof.
  induction results as [|result rest IH]; intros search_context source_files H.
  - exact H.
  - cbn [collect_snippets].
    destruct (py_get result "content" (JStr "")) as [content_snippet|e]; [|exact H].
    destruct (py_get result "sourceFile" (JStr "Unknown Source")) as [source_file|e];
      [|exact H].
    destruct (hashable source_file); [|exact H].
    apply IH. now apply set_add_distinct.
Qed.

Lemma set_new_distinct : py_distinct (set_iter (rt_set rt) (set_new (rt_set rt))) = true.
Proof. now rewrite set_iter_new. Qed.

Lemma use_search_results_distinct (search_results : json) :
  py_distinct (set_iter (rt_set rt) (fst (use_search_results rt search_results))) = true.
Proof.
  unfold use_search_results.
  destruct (py_and search_results (py_getitem search_results "results")) as [found|e];
    [|apply set_new_distinct].
  destruct (truthy found); [|apply set_new_distinct].
  destruct (py_iter found) as [results|e]; [|apply set_new_distinct].
  apply collect_snippets_distinct, set_new_distinct.
Qed.

(** What step 1 ends with, case by case. *)
Lemma retrieved_unconfigured (user_question : json) :
  search_service app = None ->
  retrieve rt app user_question =
  ([], Return (not_configured_context, set_new (rt_set rt))).
Proof. intros H. unfold retrieve. now rewrite H. Qed.

Lemma retrieved_failed (user_question : json) search (e : exn) :
  search_service app = Some search ->
  snd (search user_question 3) = Raise e ->
  retrieve rt app user_question =
  (SearchCall user_question 3 :: map Print (fst (search user_question 3)) ++
     [Print ("Error during Azure AI Search query: " +:+ exn_text e)],
   Return (search_error_context, set_new (rt_set rt))).
Proof.
  intros H F. unfold retrieve. rewrite H, call_then_service.
  unfold attempt. cbn [fst snd]. rewrite bind_run, F. reflexivity.
Qed.

Lemma retrieved_found (user_question : json) search (search_results : json) :
  search_service app = Some search ->
  snd (search user_question 3) = Return search_results ->
  retrieved rt app user_question =
  match use_search_results rt search_results with
  | (source_files, Return search_context) => (search_context, source_files)
  | (source_files, Raise _) => (search_error_context, source_files)
  end.
Proof.
  intros H F. unfold retrieved, retrieve. rewrite H, call_then_service.
  unfold attempt. cbn [fst snd]. rewrite bind_run, F. cbn [fst snd].
  destruct (use_search_results rt search_results) as [source_files [search_context|e]];
    reflexivity.
Qed.

(** The source files of step 1 never hold a value twice. *)
Lemma retrieved_distinct (user_question : json) :
  py_distinct (set_iter (rt_set rt) (snd (retrieved rt app user_question))) = true.
Proof.
  destruct (search_service app) as [search|] eqn:H.
  - destruct (snd (search user_question 3)) as [search_results|e] eqn:F.
    + rewrite (retrieved_found user_question search search_results H F).
      pose proof (use_search_results_distinct search_results) as D.
      destruct (use_search_results rt search_results) as [source_files [c|e]]; exact D.
    + unfold retrieved. rewrite (retrieved_failed user_question search e H F).
      apply set_new_distinct.
  - unfold retrieved. rewrite (retrieved_unconfigured user_question H).
    apply set_new_distinct.
Qed.

End Retrieval.

(** ** The check of the request *)

(** An object without a true prompt is refused before any other step. *)
Lemma chat_handler_rejects
    (rt : Runtime) (app : Services) (request : Request) (d : dict) :
  get_json request = Return (JObj d) ->
  (dict_get d "prompt" = None \/
   exists v, dict_get d "prompt" = Some v /\ truthy v = false) ->
  chat_handler rt app request = ([], Return no_prompt_response).
Proof.
  intros G P. unfold chat_handler.
  rewrite G, bind_return. cbn [py_get].
  destruct P as [P|(v & P & F)]; rewrite P, bind_return.
  - reflexivity.
  - rewrite F. reflexivity.
Qed.

(** A body that is no object ends in the outer [except] clause. *)
Lemma chat_handler_bad_body
    (rt : Runtime) (app : Services) (request : Request) :
  match get_json request with
  | Raise _ => True
  | Return data => is_object data = false
  end ->
  exists e,
    chat_handler rt app request =
    ([Print ("An unexpected error occurred in /api/chat: " +:+ exn_text e)],
     Return server_error_response).
Proof.
  unfold chat_handler.
  destruct (get_json request) as [data|e]; intros H.
  - rewrite bind_return.
    destruct data; try discriminate H; eexists; reflexivity.
  - now exists e.
Qed.

(** ** The claims about the handler *)

(** C5: a body that is an object without a prompt, or whose prompt is empty
    (false for Python: the empty string, null, zero, false, an empty list or
    object), is answered with 400 and "No prompt provided"; the handler
    prints nothing and calls no service: there is no event at all. *)
Theorem missing_or_empty_prompt_is_rejected
    (rt : Runtime) (app : Services) (request : Request) (d : dict) :
  get_json request = Return (JObj d) ->
  (dict_get d "prompt" = None \/
   exists v, dict_get d "prompt" = Some v /\ truthy v = false) ->
  chat_handler rt app request = ([], Return no_prompt_response).
Proof. exact (chat_handler_rejects rt app request d). Qed.

Lemma missing_or_empty_prompt_is_rejected_witness :
  chat_handler sample_runtime mock_services
    {| get_json := Return (JObj [("prompt", JStr ""); ("history", JArr [])]) |}
  = ([], Return no_prompt_response).
Proof.
  apply (missing_or_empty_prompt_is_rejected sample_runtime mock_services _
           [("prompt", JStr ""); ("history", JArr [])]).
  - reflexivity.
  - right. exists (JStr ""). split; reflexivity.
Defined.

(** C10: when the body cannot be read as JSON ([get_json] raises), or is
    JSON but not an object (so that [data.get] raises), the answer is the
    500 of the outer [except] clause, not the 400 of a missing prompt; one
    line is printed and no service is called. *)
Theorem unparseable_body_is_server_error
    (rt : Runtime) (app : Services) (request : Request) :
  match get_json request with
  | Raise _ => True
  | Return data => is_object data = false
  end ->
  exists e,
    chat_handler rt app request =
    ([Print ("An unexpected error occurred in /api/chat: " +:+ exn_text e)],
     Return server_error_response).
Proof. exact (chat_handler_bad_body rt app request). Qed.

Lemma unparseable_body_is_server_error_witness :
  exists e,
    chat_handler sample_runtime mock_services
      {| get_json := Return (JArr [JStr "prompt"]) |} =
    ([Print ("An unexpected error occurred in /api/chat: " +:+ exn_text e)],
     Return server_error_response).
Proof.
  apply (unparseable_body_is_server_error sample_runtime mock_services
           {| get_json := Return (JArr [JStr "prompt"]) |}).
  reflexivity.
Defined.

(** C2: when the completion call raises, the answer is 500 with the fixed
    body "Failed to get response from AI model", the same for every
    exception; the text of the exception goes to the printed lines only. *)
Theorem completion_failure_is_generic_500
    (rt : Runtime) (app : Services) (request : Request) (d : dict)
    (user_question : json) (e : exn) :
  get_json request = Return (JObj d) ->
  dict_get d "prompt" = Some user_question ->
  truthy user_question = true ->
  completion_call rt app user_question = Raise e ->
  snd (chat_handler rt app request) = Return model_failure_response /\
  In (Print ("Error calling Azure OpenAI: " +:+ exn_text e))
     (fst (chat_handler rt app request)).
Proof.
  intros G P T H.
  rewrite (chat_handler_prompt rt app request d user_question G P T).
  rewrite (answer_question_failed rt app user_question e H). cbn [fst snd].
  split; [reflexivity|].
  apply in_or_app. right. right. left. reflexivity.
Qed.

Lemma completion_failure_is_generic_500_witness :
  snd (chat_handler sample_runtime failing_services test_request)
  = Return model_failure_response /\
  In (Print ("Error calling Azure OpenAI: " +:+ "token expired"))
     (fst (chat_handler sample_runtime failing_services test_request)).
Proof.
  apply (completion_failure_is_generic_500 sample_runtime failing_services
           test_request test_body test_prompt
           (Exception "ClientAuthenticationError" "token expired"));
    reflexivity.
Defined.

(** C7: when the completion call returns a response without choices, the
    request is answered with 200 and the answer text is the fixed fallback
    "Sorry, I could not generate a response.". *)
Theorem no_choices_gives_fallback_answer
    (rt : Runtime) (app : Services) (request : Request) (d : dict)
    (user_question : json) (completion : ChatCompletions) :
  get_json request = Return (JObj d) ->
  dict_get d "prompt" = Some user_question ->
  truthy user_question = true ->
  completion_call rt app user_question = Return completion ->
  choices completion = [] ->
  exists response,
    snd (chat_handler rt app request) = Return response /\
    status response = 200 /\
    field "ai_response" response = Some (JStr "Sorry, I could not generate a response.").
Proof.
  intros G P T H C.
  rewrite (chat_handler_prompt rt app request d user_question G P T).
  destruct (answer_question_answered rt app user_question completion H)
    as (document_url & _ & E).
  rewrite E. cbn [snd]. eexists. split; [reflexivity|].
  split; [reflexivity|].
  unfold field, answer_text. rewrite C. reflexivity.
Qed.

Lemma no_choices_gives_fallback_answer_witness :
  exists response,
    snd (chat_handler sample_runtime silent_services test_request) = Return response /\
    status response = 200 /\
    field "ai_response" response = Some (JStr "Sorry, I could not generate a response.").
Proof.
  apply (no_choices_gives_fallback_answer sample_runtime silent_services
           test_request test_body test_prompt
           {| choices := [] |});
    reflexivity.
Defined.

(** Steps 1 to 5 always reach the model, with the messages of step 2. *)
Lemma answer_question_calls_model
    (rt : Runtime) (app : Services) (user_question : json) :
  In (CompletionCall (messages_sent rt app user_question))
     (fst (answer_question rt app user_question)).
Proof.
  destruct (completion_call rt app user_question) as [completion|e] eqn:H.
  - destruct (answer_question_answered rt app user_question completion H)
      as (document_url & _ & E).
    rewrite E. cbn [fst]. apply in_or_app. right. left. reflexivity.
  - rewrite (answer_question_failed rt app user_question e H). cbn [fst].
    apply in_or_app. right. left. reflexivity.
Qed.

(** C1, as stated, fails where the model fails too: the search raises, the
    handler goes on to the completion stage, the completion call raises,
    and the answer is 500. *)
Lemma search_failure_counterexample :
  truthy test_prompt = true /\
  (exists search e,
     search_service failing_services = Some search /\
     snd (search test_prompt 3) = Raise e) /\
  snd (chat_handler sample_runtime failing_services test_request)
  = Return model_failure_response /\
  status model_failure_response = 500.
Proof.
  split; [reflexivity|]. split; [|split; reflexivity].
  eexists. eexists. split; reflexivity.
Qed.

(** C1, amended: when the search call raises, the context block of the
    system message is the text "Error retrieving documents from search
    index.", no source file is collected, and the handler calls the model
    with that message.  If the completion call returns, the answer is 200
    with the answer text, an empty list of sources and no error field; if it
    raises, the answer is the 500 of the completion failure.  The search
    error reaches the caller in neither case. *)
Theorem search_failure_degrades
    (rt : Runtime) (app : Services) (request : Request) (d : dict)
    (user_question : json) search (e : exn) :
  get_json request = Return (JObj d) ->
  dict_get d "prompt" = Some user_question ->
  truthy user_question = true ->
  search_service app = Some search ->
  snd (search user_question 3) = Raise e ->
  messages_sent rt app user_question =
    [ SystemMessage (SYSTEM_PROMPT app +:+ search_error_context);
      UserMessage user_question ] /\
  In (CompletionCall (messages_sent rt app user_question))
     (fst (chat_handler rt app request)) /\
  (forall completion,
     completion_call rt app user_question = Return completion ->
     exists response,
       snd (chat_handler rt app request) = Return response /\
       status response = 200 /\
       field "ai_response" response = Some (answer_text completion) /\
       field "sources" response = Some (JArr []) /\
       field "error" response = None) /\
  (forall e',
     completion_call rt app user_question = Raise e' ->
     snd (chat_handler rt app request) = Return model_failure_response).
Proof.
  intros G P T S F.
  rewrite (chat_handler_prompt rt app request d user_question G P T).
  assert (R : retrieved rt app user_question =
              (search_error_context, set_new (rt_set rt))).
  { unfold retrieved. now rewrite (retrieved_failed rt app user_question search e S F). }
  split; [|split; [|split]].
  - unfold messages_sent. now rewrite R.
  - apply answer_question_calls_model.
  - intros completion H.
    destruct (answer_question_answered rt app user_question completion H)
      as (document_url & _ & E).
    rewrite E, R. cbn [fst snd]. rewrite set_iter_new.
    eexists. split; [reflexivity|]. repeat split.
  - intros e' H. now rewrite (answer_question_failed rt app user_question e' H).
Qed.

Lemma search_failure_degrades_witness :
  messages_sent sample_runtime degraded_services test_prompt =
    [ SystemMessage (SYSTEM_PROMPT degraded_services +:+ search_error_context);
      UserMessage test_prompt ] /\
  exists response,
    snd (chat_handler sample_runtime degraded_services
           test_request) = Return response /\
    status response = 200 /\
    field "ai_response" response = Some (answer_text mock_completion).
Proof.
  destruct (search_failure_degrades sample_runtime degraded_services
              test_request test_body test_prompt
              (fun _ _ => raise (Exception "HttpResponseError" "index unavailable"))
              (Exception "HttpResponseError" "index unavailable")
              eq_refl eq_refl eq_refl eq_refl eq_refl)
    as (M & _ & A & _).
  split; [exact M|].
  destruct (A mock_completion eq_refl) as (response & R & S & I & _).
  exists response. repeat split; assumption.
Defined.

(** Every 200 comes from steps 1 to 5 with a completion call that returned. *)
Lemma chat_handler_200
    (rt : Runtime) (app : Services) (request : Request) (response : Response) :
  snd (chat_handler rt app request) = Return response ->
  status response = 200 ->
  exists d user_question completion document_url,
    get_json request = Return (JObj d) /\
    dict_get d "prompt" = Some user_question /\
    truthy user_question = true /\
    completion_call rt app user_question = Return completion /\
    chat_handler rt app request = answer_question rt app user_question /\
    response =
      jsonify [ ("ai_response", answer_text completion);
                ("document_url", document_url);
                ("sources", JArr (set_iter (rt_set rt)
                                    (snd (retrieved rt app user_question)))) ]
              200.
Proof.
  intros R S.
  destruct (get_json request) as [data|e] eqn:G.
  2:{ unfold chat_handler in R. rewrite G in R. cbn in R.
      injection R as <-. discriminate S. }
  destruct (is_object data) eqn:O.
  2:{ destruct (chat_handler_bad_body rt app request) as [e E].
      - now rewrite G.
      - rewrite E in R. injection R as <-. discriminate S. }
  destruct data as [| | | | |d]; try discriminate O.
  destruct (dict_get d "prompt") as [user_question|] eqn:P.
  2:{ rewrite (chat_handler_rejects rt app request d G) in R.
      - injection R as <-. discriminate S.
      - now left. }
  destruct (truthy user_question) eqn:T.
  2:{ rewrite (chat_handler_rejects rt app request d G) in R.
      - injection R as <-. discriminate S.
      - right. now exists user_question. }
  pose proof (chat_handler_prompt rt app request d user_question G P T) as E.
  rewrite E in R.
  destruct (completion_call rt app user_question) as [completion|e] eqn:H.
  - destruct (answer_question_answered rt app user_question completion H)
      as (document_url & _ & A).
    rewrite A in R. injection R as <-.
    exists d, user_question, completion, document_url. repeat split; assumption.
  - rewrite (answer_question_failed rt app user_question e H) in R.
    injection R as <-. discriminate S.
Qed.

(** The set after step 1 holds the values the loop added, each once. *)
Lemma use_search_results_sources (rt : Runtime) (fields : dict) (results : list json) :
  dict_get fields "results" = Some (JArr results) ->
  Permutation (set_iter (rt_set rt) (fst (use_search_results rt (JObj fields))))
              (unique (added_sources results)).
Proof.
  intros H. unfold use_search_results, py_and.
  assert (N : truthy (JObj fields) = true).
  { destruct fields; [discriminate H|reflexivity]. }
  rewrite N. cbn [py_getitem]. rewrite H.
  destruct results as [|result rest].
  - cbn [truthy fst added_sources]. now rewrite set_iter_new.
  - cbn [truthy py_iter]. apply collect_snippets_sources. now rewrite set_iter_new.
Qed.

Lemma retrieved_sources
    (rt : Runtime) (app : Services) (user_question : json) search
    (fields : dict) (results : list json) :
  search_service app = Some search ->
  snd (search user_question 3) = Return (JObj fields) ->
  dict_get fields "results" = Some (JArr results) ->
  Permutation (set_iter (rt_set rt) (snd (retrieved rt app user_question)))
              (unique (added_sources results)).
Proof.
  intros S F H.
  rewrite (retrieved_found rt app user_question search (JObj fields) S F).
  pose proof (use_search_results_sources rt fields results H) as U.
  destruct (use_search_results rt (JObj fields)) as [source_files [c|e]]; exact U.
Qed.

Lemma permutation_singleton (v : json) (l : list json) :
  Permutation l [v] -> l = [v].
Proof. intros H. now apply Permutation_length_1_inv, Permutation_sym. Qed.

(** C3: the sources of a 200 response hold no value twice, so a file name
    occurs at most once; and when the search returns two snippets with the
    same [sourceFile], the sources are that name, once. *)
Theorem sources_are_deduplicated :
  (forall (rt : Runtime) (app : Services) (request : Request) (response : Response),
     snd (chat_handler rt app request) = Return response ->
     status response = 200 ->
     exists sources,
       field "sources" response = Some (JArr sources) /\
       py_distinct sources = true /\
       forall name, occurrences name sources <= 1) /\
  (forall (rt : Runtime) (app : Services) (request : Request) (d : dict)
          (user_question : json) search (fields first second : dict) (name : string)
          (completion : ChatCompletions),
     get_json request = Return (JObj d) ->
     dict_get d "prompt" = Some user_question ->
     truthy user_question = true ->
     search_service app = Some search ->
     snd (search user_question 3) = Return (JObj fields) ->
     dict_get fields "results" = Some (JArr [JObj first; JObj second]) ->
     dict_get first "sourceFile" = Some (JStr name) ->
     dict_get second "sourceFile" = Some (JStr name) ->
     completion_call rt app user_question = Return completion ->
     exists response,
       snd (chat_handler rt app request) = Return response /\
       status response = 200 /\
       field "sources" response = Some (JArr [JStr name]) /\
       occurrences name [JStr name] = 1).
Proof.
  split.
  - intros rt app request response R S.
    destruct (chat_handler_200 rt app request response R S)
      as (d & user_question & completion & document_url & _ & _ & _ & _ & _ & ->).
    exists (set_iter (rt_set rt) (snd (retrieved rt app user_question))).
    pose proof (retrieved_distinct rt app user_question) as D.
    split; [reflexivity|]. split; [exact D|].
    intros name. now apply py_distinct_occurrences.
  - intros rt app request d user_question search fields first second name completion
           G P T S F H H1 H2 C.
    rewrite (chat_handler_prompt rt app request d user_question G P T).
    destruct (answer_question_answered rt app user_question completion C)
      as (document_url & _ & E).
    rewrite E. cbn [snd]. eexists. split; [reflexivity|]. split; [reflexivity|].
    pose proof (retrieved_sources rt app user_question search fields _ S F H) as U.
    cbn [added_sources py_get] in U. rewrite H1, H2 in U.
    cbn [hashable] in U. unfold unique in U. cbn [fold_left] in U.
    unfold ordered_add in U. cbn [py_in existsb py_eq List.app] in U.
    rewrite String.eqb_refl in U. cbn [orb] in U.
    apply permutation_singleton in U.
    unfold field. cbn [body jsonify dict_get String.eqb Ascii.eqb Bool.eqb].
    rewrite U. split; [reflexivity|].
    unfold occurrences. cbn [filter py_eq]. now rewrite String.eqb_refl.
Qed.

Lemma sources_are_deduplicated_witness :
  exists response,
    snd (chat_handler sample_runtime (services_finding duplicate_results)
           test_request) = Return response /\
    status response = 200 /\
    field "sources" response = Some (JArr [JStr "ESG_Policy.pdf"]) /\
    exists sources,
      field "sources" response = Some (JArr sources) /\ py_distinct sources = true.
Proof.
  destruct (proj2 sources_are_deduplicated sample_runtime
              (services_finding duplicate_results) test_request test_body test_prompt
              (fun _ _ => ret (JObj [("count", JInt 2); ("results", JArr duplicate_results)]))
              [("count", JInt 2); ("results", JArr duplicate_results)]
              _ _ "ESG_Policy.pdf" mock_completion
              eq_refl eq_refl eq_refl eq_refl eq_refl eq_refl eq_refl eq_refl eq_refl)
    as (response & R & S & F & _).
  exists response. split; [exact R|]. split; [exact S|]. split; [exact F|].
  destruct (proj1 sources_are_deduplicated sample_runtime
              (services_finding duplicate_results) test_request response R S)
    as (sources & F' & D & _).
  exists sources. split; assumption.
Defined.

(** C4, as stated, fails: nothing sorts the set of source files, and a set
    that iterates as it was filled answers [b.pdf, a.pdf]. *)
Lemma sorted_sources_counterexample :
  exists response,
    snd (chat_handler sample_runtime (services_finding unsorted_results)
           test_request) = Return response /\
    status response = 200 /\
    field "sources" response = Some (JArr [JStr "b.pdf"; JStr "a.pdf"]) /\
    sorted_names [JStr "b.pdf"; JStr "a.pdf"] = false.
Proof. eexists. repeat split. Qed.

(** The order of the sources is the order of the set: the same request on
    the same services is answered in the other order by a runtime whose
    sets iterate the other way. *)
Lemma sources_order_follows_the_set :
  exists response response',
    snd (chat_handler sample_runtime (services_finding unsorted_results) test_request)
    = Return response /\
    snd (chat_handler reversed_runtime (services_finding unsorted_results) test_request)
    = Return response' /\
    field "sources" response = Some (JArr [JStr "b.pdf"; JStr "a.pdf"]) /\
    field "sources" response' = Some (JArr [JStr "a.pdf"; JStr "b.pdf"]).
Proof. eexists. eexists. repeat split. Qed.

(** C4, amended: the sources of the 200 response are the source file names
    the loop collected, each once, in the order in which the set iterates;
    the handler does not sort them. *)
Theorem sources_are_the_collected_names
    (rt : Runtime) (app : Services) (request : Request) (d : dict)
    (user_question : json) search (fields : dict) (results : list json)
    (completion : ChatCompletions) :
  get_json request = Return (JObj d) ->
  dict_get d "prompt" = Some user_question ->
  truthy user_question = true ->
  search_service app = Some search ->
  snd (search user_question 3) = Return (JObj fields) ->
  dict_get fields "results" = Some (JArr results) ->
  completion_call rt app user_question = Return completion ->
  exists response sources,
    snd (chat_handler rt app request) = Return response /\
    status response = 200 /\
    field "sources" response = Some (JArr sources) /\
    Permutation sources (unique (added_sources results)) /\
    py_distinct sources = true.
Proof.
  intros G P T S F H C.
  rewrite (chat_handler_prompt rt app request d user_question G P T).
  destruct (answer_question_answered rt app user_question completion C)
    as (document_url & _ & E).
  rewrite E. cbn [snd]. eexists. eexists.
  split; [reflexivity|]. split; [reflexivity|]. split; [reflexivity|].
  split.
  - exact (retrieved_sources rt app user_question search fields results S F H).
  - apply retrieved_distinct.
Qed.

Lemma sources_are_the_collected_names_witness :
  exists response sources,
    snd (chat_handler sample_runtime (services_finding unsorted_results)
           test_request) = Return response /\
    status response = 200 /\
    field "sources" response = Some (JArr sources) /\
    Permutation sources [JStr "b.pdf"; JStr "a.pdf"] /\
    py_distinct sources = true.
Proof.
  exact (sources_are_the_collected_names sample_runtime
           (services_finding unsorted_results) test_request test_body test_prompt
           (fun _ _ => ret (JObj [("count", JInt 2); ("results", JArr unsorted_results)]))
           [("count", JInt 2); ("results", JArr unsorted_results)]
           unsorted_results mock_completion
           eq_refl eq_refl eq_refl eq_refl eq_refl eq_refl eq_refl).
Defined.

(** ** Step 4: the document *)

Lemma no_upload_app (t t' : list event) :
  no_upload (t ++ t') = no_upload t && no_upload t'.
Proof. apply forallb_app. Qed.

Lemma no_upload_printed (lines : list string) : no_upload (map Print lines) = true.
Proof. induction lines as [|line rest IH]; [reflexivity|exact IH]. Qed.

Lemma chat_handler_cases (rt : Runtime) (app : Services) (request : Request) :
  (exists e,
     chat_handler rt app request =
     ([Print ("An unexpected error occurred in /api/chat: " +:+ exn_text e)],
      Return server_error_response)) \/
  chat_handler rt app request = ([], Return no_prompt_response) \/
  (exists d user_question,
     get_json request = Return (JObj d) /\
     dict_get d "prompt" = Some user_question /\
     truthy user_question = true /\
     chat_handler rt app request = answer_question rt app user_question).
Proof.
  destruct (get_json request) as [data|e] eqn:G.
  2:{ left. apply chat_handler_bad_body. now rewrite G. }
  destruct (is_object data) eqn:O.
  2:{ left. apply chat_handler_bad_body. now rewrite G. }
  destruct data as [| | | | |d]; try discriminate O.
  destruct (dict_get d "prompt") as [user_question|] eqn:P.
  2:{ right. left. apply (chat_handler_rejects rt app request d G). now left. }
  destruct (truthy user_question) eqn:T.
  - right. right. exists d, user_question.
    repeat split; try assumption.
    exact (chat_handler_prompt rt app request d user_question G P T).
  - right. left. apply (chat_handler_rejects rt app request d G).
    right. now exists user_question.
Qed.

Section Document.

Variable rt : Runtime.
Variable app : Services.

Lemma retrieve_no_upload (user_question : json) :
  no_upload (fst (retrieve rt app user_question)) = true.
Proof.
  unfold retrieve.
  destruct (search_service app) as [search|]; [|reflexivity].
  rewrite call_then_service. unfold attempt. cbn [fst snd]. rewrite bind_run.
  cbn [fst]. rewrite no_upload_app. cbn [no_upload forallb is_upload negb andb].
  fold (no_upload (map Print (fst (search user_question 3)))).
  rewrite no_upload_printed. cbn [andb].
  destruct (snd (search user_question 3)) as [search_results|e]; [|reflexivity].
  destruct (use_search_results rt search_results) as [source_files [c|e]]; reflexivity.
Qed.

Lemma store_document_unconfigured (user_question ai_response_text : json)
    (source_files : source_set rt) :
  blob_service app = None ->
  store_document rt app user_question ai_response_text source_files =
  ([Print "Blob service not configured. Skipping document upload."], Return JNull).
Proof. intros H. unfold store_document. now rewrite H. Qed.

(** A stage that raises, or whose upload returns [None], leaves
    [document_url] at [None]. *)
Lemma store_document_failed (user_question ai_response_text : json)
    (source_files : source_set rt) upload :
  blob_service app = Some upload ->
  match snd (upload_simulated_document rt upload user_question ai_response_text
               source_files) with
  | Raise _ => True
  | Return document_url => document_url = JNull
  end ->
  snd (store_document rt app user_question ai_response_text source_files)
  = Return JNull.
Proof.
  intros H F. unfold store_document. rewrite H.
  destruct (upload_simulated_document rt upload user_question ai_response_text
              source_files) as [t [document_url|e]]; cbn [snd] in *.
  - now subst.
  - reflexivity.
Qed.

Lemma unconfigured_no_upload (request : Request) :
  blob_service app = None ->
  no_upload (fst (chat_handler rt app request)) = true.
Proof.
  intros B.
  destruct (chat_handler_cases rt app request)
    as [[e E]|[E|(d & user_question & _ & _ & _ & E)]]; rewrite E; try reflexivity.
  destruct (completion_call rt app user_question) as [completion|e] eqn:H.
  - destruct (answer_question_answered rt app user_question completion H)
      as (document_url & _ & A).
    rewrite A, store_document_unconfigured by exact B. cbn [fst].
    rewrite no_upload_app, retrieve_no_upload. reflexivity.
  - rewrite (answer_question_failed rt app user_question e H). cbn [fst].
    rewrite no_upload_app, retrieve_no_upload. reflexivity.
Qed.

Lemma unconfigured_document_url (request : Request) (response : Response) :
  blob_service app = None ->
  snd (chat_handler rt app request) = Return response ->
  field "document_url" response =
  if Nat.eqb (status response) 200 then Some JNull else None.
Proof.
  intros B R.
  destruct (chat_handler_cases rt app request)
    as [[e E]|[E|(d & user_question & _ & _ & _ & E)]]; rewrite E in R.
  - injection R as <-. reflexivity.
  - injection R as <-. reflexivity.
  - destruct (completion_call rt app user_question) as [completion|e] eqn:H.
    + destruct (answer_question_answered rt app user_question completion H)
        as (document_url & U & A).
      rewrite store_document_unconfigured in U by exact B.
      injection U as <-. rewrite A in R. injection R as <-. reflexivity.
    + rewrite (answer_question_failed rt app user_question e H) in R.
      injection R as <-. reflexivity.
Qed.

End Document.

(** [BlobStorageService.upload_document] never raises: it returns the URL
    after a successful upload and [None] otherwise. *)
Lemma upload_document_signals (container_client : ContainerClient)
    (document_content blob_name content_type : string) :
  snd (BlobStorageService.upload_document container_client document_content
         blob_name content_type)
  = match container_client blob_name with
    | Return blob_client =>
        match upload_blob blob_client document_content true content_type with
        | Return _ => Return (JStr (url blob_client))
        | Raise _ => Return JNull
        end
    | Raise _ => Return JNull
    end.
Proof.
  unfold BlobStorageService.upload_document.
  destruct (container_client blob_name) as [blob_client|e]; [|reflexivity].
  rewrite bind_return.
  destruct (upload_blob blob_client document_content true content_type);
    reflexivity.
Qed.

(** C6: without a document store the handler never calls
    [upload_document], and [document_url] is null in the 200 response (the
    400 and 500 responses have no such field); with a store, when the
    document stage raises or the upload returns [None], the request is still
    answered with 200, the answer text and a null [document_url];
    [BlobStorageService.upload_document] itself turns every error of the
    store into [None]. *)
Theorem document_failure_is_not_an_error :
  (forall (rt : Runtime) (app : Services) (request : Request),
     blob_service app = None ->
     no_upload (fst (chat_handler rt app request)) = true /\
     forall response,
       snd (chat_handler rt app request) = Return response ->
       field "document_url" response =
       if Nat.eqb (status response) 200 then Some JNull else None) /\
  (forall (rt : Runtime) (app : Services) (request : Request) (d : dict)
          (user_question : json) upload (completion : ChatCompletions),
     get_json request = Return (JObj d) ->
     dict_get d "prompt" = Some user_question ->
     truthy user_question = true ->
     completion_call rt app user_question = Return completion ->
     blob_service app = Some upload ->
     match snd (upload_simulated_document rt upload user_question
                  (answer_text completion) (snd (retrieved rt app user_question))) with
     | Raise _ => True
     | Return document_url => document_url = JNull
     end ->
     exists response,
       snd (chat_handler rt app request) = Return response /\
       status response = 200 /\
       field "ai_response" response = Some (answer_text completion) /\
       field "document_url" response = Some JNull) /\
  (forall (container_client : ContainerClient)
          (document_content blob_name content_type : string),
     (forall blob_client,
        container_client blob_name = Return blob_client ->
        upload_blob blob_client document_content true content_type <> Return tt) ->
     snd (BlobStorageService.upload_document container_client document_content
            blob_name content_type) = Return JNull).
Proof.
  split; [|split].
  - intros rt app request B. split.
    + exact (unconfigured_no_upload rt app request B).
    + intros response. exact (unconfigured_document_url rt app request response B).
  - intros rt app request d user_question upload completion G P T C B F.
    rewrite (chat_handler_prompt rt app request d user_question G P T).
    destruct (answer_question_answered rt app user_question completion C)
      as (document_url & U & E).
    rewrite (store_document_failed rt app user_question (answer_text completion)
               (snd (retrieved rt app user_question)) upload B F) in U.
    injection U as <-. rewrite E. cbn [snd].
    eexists. repeat split.
  - intros container_client document_content blob_name content_type H.
    rewrite upload_document_signals.
    destruct (container_client blob_name) as [blob_client|e]; [|reflexivity].
    specialize (H blob_client eq_refl).
    destruct (upload_blob blob_client document_content true content_type) as [[]|e];
      [now contradiction H|reflexivity].
Qed.

Lemma document_failure_is_not_an_error_witness :
  no_upload (fst (chat_handler sample_runtime silent_services test_request)) = true /\
  (exists response,
     snd (chat_handler sample_runtime (services_storing unreachable_container)
            test_request) = Return response /\
     status response = 200 /\
     field "ai_response" response = Some (answer_text mock_completion) /\
     field "document_url" response = Some JNull) /\
  snd (BlobStorageService.upload_document unreachable_container "text" "name.docx"
         "text/plain") = Return JNull.
Proof.
  destruct document_failure_is_not_an_error as (A & B & C).
  split; [|split].
  - exact (proj1 (A sample_runtime silent_services test_request eq_refl)).
  - exact (B sample_runtime (services_storing unreachable_container)
             test_request test_body test_prompt
             (BlobStorageService.upload_document unreachable_container)
             mock_completion eq_refl eq_refl eq_refl eq_refl eq_refl eq_refl).
  - apply (C unreachable_container "text" "name.docx" "text/plain").
    intros blob_client H. discriminate H.
Defined.

(** ** The search service behind the handler *)

Lemma set_singleton (S : PySet) (v : json) :
  set_iter S (set_add S v (set_new S)) = [v].
Proof.
  apply permutation_singleton.
  rewrite (set_add_fresh S v (set_new S)); now rewrite set_iter_new.
Qed.

(** A document that [search_documents] returns always has the key
    [sourceFile]; when the index gave none, its value is the empty string:
    behind [AzureSearchService] the default of the handler is never used. *)
Lemma extract_document_source_file (result : dict) (document : json) :
  extract_document result = Return document ->
  py_get document "sourceFile" (JStr "Unknown Source") =
  Return (dict_get_default result "sourceFile" (JStr "")).
Proof.
  unfold extract_document.
  destruct (dict_getitem result "id") as [id|e]; [|discriminate].
  destruct (dict_getitem result "@search.score") as [score|e]; [|discriminate].
  intros H. injection H as <-. reflexivity.
Qed.

(** C8, where the code departs from the claim: for a document of the index
    without [sourceFile], [search_documents] stores the empty string under
    that key, so the default "Unknown Source" of the handler is not used:
    the snippet is labelled with the empty string in the context block and
    the empty string is the collected source file name.  The content is the
    empty string, as claimed. *)
Theorem missing_source_file_is_labelled_empty (rt : Runtime) :
  extract_document unlabelled_document =
    Return (JObj [ ("id", JStr "doc1"); ("title", JStr "Untitled");
                   ("content", JStr ""); ("source", JStr "");
                   ("sourceFile", JStr ""); ("score", JInt 1);
                   ("captions", JArr []) ]) /\
  messages_sent rt (services_searching (index_with [unlabelled_document])) test_prompt =
    [ SystemMessage
        ("You are a helpful AI assistant." +:+ nl +:+ nl +:+
         "Relevant Document Snippets:" +:+ nl +:+ nl +:+ "---" +:+ nl +:+
         "Source: " +:+ nl +:+ "Snippet: " +:+ nl +:+ "---");
      UserMessage test_prompt ] /\
  exists response,
    snd (chat_handler rt (services_searching (index_with [unlabelled_document]))
           test_request) = Return response /\
    status response = 200 /\
    field "sources" response = Some (JArr [JStr ""]).
Proof.
  assert (R : retrieved rt (services_searching (index_with [unlabelled_document]))
                test_prompt
              = (nl +:+ nl +:+ "Relevant Document Snippets:" +:+ nl +:+ nl +:+ "---"
                   +:+ nl +:+ "Source: " +:+ nl +:+ "Snippet: " +:+ nl +:+ "---",
                 set_add (rt_set rt) (JStr "") (set_new (rt_set rt)))).
  { reflexivity. }
  split; [reflexivity|]. split.
  - unfold messages_sent. rewrite R. reflexivity.
  - rewrite (chat_handler_prompt rt
               (services_searching (index_with [unlabelled_document]))
               test_request test_body test_prompt
               eq_refl eq_refl eq_refl).
    destruct (answer_question_answered rt
                (services_searching (index_with [unlabelled_document]))
                test_prompt mock_completion eq_refl) as (document_url & _ & E).
    rewrite E, R. cbn [snd]. rewrite set_singleton.
    eexists. repeat split.
Qed.

(** The default of the handler does label a result that comes without the
    key, as a search client other than [AzureSearchService] may return it. *)
Lemma unknown_source_default (rt : Runtime) (search_context : string)
    (source_files : source_set rt) (result : dict) :
  dict_get result "sourceFile" = None ->
  fst (collect_snippets rt [JObj result] search_context source_files) =
  set_add (rt_set rt) (JStr "Unknown Source") source_files.
Proof. intros H. cbn. now rewrite H. Qed.

(** ** The renderer *)

Lemma and_then_return (f g : step) (doc doc' : Document) :
  f doc = Return doc' -> (f >>> g) doc = g doc'.
Proof. intros H. unfold and_then. now rewrite H. Qed.

Lemma has_style_modified (name n : string) (change : Style -> Style) (l : list Style) :
  (forall s, style_name (change s) = style_name s) ->
  existsb (fun s => String.eqb (style_name s) name)
    (map (fun s => if String.eqb (style_name s) n then change s else s) l)
  = existsb (fun s => String.eqb (style_name s) name) l.
Proof.
  intros H. induction l as [|s rest IH]; cbn [map existsb]; [reflexivity|].
  rewrite IH. destruct (String.eqb (style_name s) n); now rewrite ?H.
Qed.

Lemma modify_style_run (name : string) (change : Style -> Style) (doc : Document) :
  has_style name doc = true ->
  modify_style name change doc =
  Return {| styles := map (fun s => if String.eqb (style_name s) name
                                    then change s else s) (styles doc);
            paragraphs := paragraphs doc;
            footer := footer doc |}.
Proof. intros H. unfold modify_style. now rewrite H. Qed.

Lemma add_style_run (name : string) (doc : Document) :
  has_style name doc = false ->
  add_style name doc =
  Return {| styles := styles doc ++
                        [ {| style_name := name; base_style := None;
                             font := empty_font |} ];
            paragraphs := paragraphs doc;
            footer := footer doc |}.
Proof. intros H. unfold add_style. now rewrite H. Qed.

Ltac style_known :=
  unfold has_style; cbn [styles];
  repeat first [ rewrite has_style_modified by (intros; reflexivity)
               | rewrite existsb_app ];
  cbn [existsb style_name String.eqb Ascii.eqb Bool.eqb orb].

(** A template that already has a style named "Title" stops the renderer at
    its first [add_style]. *)
Lemma define_styles_title_taken (doc : Document) :
  has_style "Normal" doc = true ->
  has_style "Title" doc = true ->
  define_styles doc = Raise (ValueError "document already contains style 'Title'").
Proof.
  intros N T. unfold define_styles.
  erewrite and_then_return by (apply modify_style_run; exact N).
  unfold and_then at 1. unfold add_style.
  unfold has_style in T. style_known. rewrite T. reflexivity.
Qed.

Lemma docx_document_title_taken (rt : Runtime) (lib : DocxLibrary)
    (question answer : string) (sources : option (list string)) :
  has_style "Normal" (new_document lib) = true ->
  has_style "Title" (new_document lib) = true ->
  docx_document rt lib question answer sources =
  Raise (ValueError "document already contains style 'Title'").
Proof.
  intros N T. unfold docx_document. unfold and_then at 1.
  now rewrite (define_styles_title_taken (new_document lib) N T).
Qed.

(** C9: the code renders no document.  python-docx starts every document
    from its default template, which has the styles Normal and Title; on a
    template that has both, [create_docx_document] raises the ValueError of
    [styles.add_style('Title', ...)] for every question, answer and list of
    sources, before it adds a paragraph: no title, heading, line of a source
    or footer is written. *)
Theorem renderer_stops_at_the_title_style (rt : Runtime) (lib : DocxLibrary)
    (question answer : string) (sources : option (list string)) :
  has_style "Normal" (new_document lib) = true ->
  has_style "Title" (new_document lib) = true ->
  define_styles (new_document lib) =
    Raise (ValueError "document already contains style 'Title'") /\
  docx_document rt lib question answer sources =
    Raise (ValueError "document already contains style 'Title'") /\
  create_docx_document rt lib question answer sources =
    Raise (ValueError "document already contains style 'Title'").
Proof.
  intros N T.
  pose proof (docx_document_title_taken rt lib question answer sources N T) as D.
  split; [exact (define_styles_title_taken (new_document lib) N T)|].
  split; [exact D|].
  unfold create_docx_document. now rewrite D.
Qed.

Lemma renderer_stops_at_the_title_style_witness :
  create_docx_document sample_runtime template_with_title
    "What is the fund's ESG policy?" "The fund invests responsibly."
    (Some ["ESG_Policy.pdf"]) =
  Raise (ValueError "document already contains style 'Title'").
Proof.
  exact (proj2 (proj2 (renderer_stops_at_the_title_style sample_runtime
                         template_with_title "What is the fund's ESG policy?"
                         "The fund invests responsibly." (Some ["ESG_Policy.pdf"])
                         eq_refl eq_refl))).
Defined.

(** ** Further properties of the handler *)

(** X1: No instance of [Exception] leaves the handler: whatever the request
    is, and whether each call of a service returns or raises an instance of
    [Exception], the handler returns a response, which is one of the three
    error responses or a 200 whose body has the keys ai_response,
    document_url and sources. *)
Theorem every_request_is_answered
    (rt : Runtime) (app : Services) (request : Request) :
  exists response,
    snd (chat_handler rt app request) = Return response /\
    (response = no_prompt_response \/
     response = model_failure_response \/
     response = server_error_response \/
     (status response = 200 /\
      map fst (body response) = ["ai_response"; "document_url"; "sources"])).
Proof.
  destruct (chat_handler_cases rt app request)
    as [[e E]|[E|(d & user_question & _ & _ & _ & E)]]; rewrite E.
  - eexists. split; [reflexivity|]. right. right. now left.
  - eexists. split; [reflexivity|]. now left.
  - destruct (completion_call rt app user_question) as [completion|e] eqn:H.
    + destruct (answer_question_answered rt app user_question completion H)
        as (document_url & _ & A).
      rewrite A. eexists. split; [reflexivity|]. right. right. right.
      split; reflexivity.
    + rewrite (answer_question_failed rt app user_question e H).
      eexists. split; [reflexivity|]. right. now left.
Qed.

Lemma service_calls_app (t t' : list event) :
  service_calls (t ++ t') = service_calls t ++ service_calls t'.
Proof. apply filter_app. Qed.

Lemma service_calls_printed (lines : list string) :
  service_calls (map Print lines) = [].
Proof. induction lines as [|line rest IH]; [reflexivity|exact IH]. Qed.

Section Calls.

Variable rt : Runtime.
Variable app : Services.

Lemma retrieve_calls (user_question : json) :
  service_calls (fst (retrieve rt app user_question)) =
  match search_service app with
  | Some _ => [SearchCall user_question 3]
  | None => []
  end.
Proof.
  unfold retrieve.
  destruct (search_service app) as [search|]; [|reflexivity].
  rewrite call_then_service. unfold attempt. cbn [fst snd]. rewrite bind_run.
  cbn [fst]. rewrite service_calls_app.
  cbn [service_calls filter is_service_call].
  fold (service_calls (map Print (fst (search user_question 3)))).
  rewrite service_calls_printed.
  destruct (snd (search user_question 3)) as [search_results|e]; [|reflexivity].
  destruct (use_search_results rt search_results) as [source_files [c|e]]; reflexivity.
Qed.

Lemma upload_simulated_document_calls upload (user_question ai_response_text : json)
    (source_files : source_set rt) :
  service_calls (fst (upload_simulated_document rt upload user_question
                        ai_response_text source_files)) =
  upload_made rt user_question ai_response_text source_files.
Proof.
  unfold upload_simulated_document, upload_made.
  destruct (question_fragment user_question) as [fragment|e]; [|reflexivity].
  rewrite bind_return.
  destruct (sources_text rt source_files) as [sources|e]; [|reflexivity].
  rewrite bind_return.
  fold (simulated_blob_name rt fragment).
  fold (simulated_content rt user_question ai_response_text sources).
  destruct (encode_utf8 (simulated_content rt user_question ai_response_text sources))
    as [content|e]; [|reflexivity].
  rewrite bind_return.
  set (name := simulated_blob_name rt fragment).
  unfold emit at 1. rewrite bind_run. cbn [fst].
  cbn [service_calls filter is_service_call List.app].
  f_equal.
  destruct (upload content name "text/plain") as [t [document_url|e]].
  - unfold relabel. cbn [fst snd]. rewrite bind_run. cbn [fst].
    fold (service_calls (map Print t ++ fst (print ("Simulated document uploaded to: "
            +:+ py_str rt document_url) ;; ret document_url))).
    rewrite service_calls_app, service_calls_printed. reflexivity.
  - unfold relabel, bind. cbn [fst snd].
    fold (service_calls (map Print t)). apply service_calls_printed.
Qed.

Lemma store_document_calls (user_question ai_response_text : json)
    (source_files : source_set rt) :
  service_calls (fst (store_document rt app user_question ai_response_text
                        source_files)) =
  match blob_service app with
  | Some _ => upload_made rt user_question ai_response_text source_files
  | None => []
  end.
Proof.
  unfold store_document.
  destruct (blob_service app) as [upload|]; [|reflexivity].
  rewrite <- (upload_simulated_document_calls upload).
  destruct (upload_simulated_document rt upload user_question ai_response_text
              source_files) as [t [document_url|e]].
  - reflexivity.
  - rewrite try_except_raise. cbn [fst]. rewrite service_calls_app.
    cbn. now rewrite app_nil_r.
Qed.

End Calls.

Lemma answer_question_calls
    (rt : Runtime) (app : Services) (user_question : json) :
  service_calls (fst (answer_question rt app user_question)) =
  match search_service app with
  | Some _ => [SearchCall user_question 3]
  | None => []
  end ++
  CompletionCall (messages_sent rt app user_question) ::
  match completion_call rt app user_question, blob_service app with
  | Return completion, Some _ =>
      upload_made rt user_question (answer_text completion)
                  (snd (retrieved rt app user_question))
  | _, _ => []
  end.
Proof.
  destruct (completion_call rt app user_question) as [completion|e] eqn:H.
  - destruct (answer_question_answered rt app user_question completion H)
      as (document_url & _ & E).
    rewrite E. cbn [fst]. rewrite service_calls_app, retrieve_calls.
    f_equal. cbn [service_calls filter is_service_call]. f_equal.
    fold (service_calls (fst (store_document rt app user_question
                                (answer_text completion)
                                (snd (retrieved rt app user_question))))).
    rewrite store_document_calls.
    destruct (blob_service app); reflexivity.
  - rewrite (answer_question_failed rt app user_question e H). cbn [fst].
    rewrite service_calls_app, retrieve_calls. reflexivity.
Qed.

(** X2: A request with a prompt calls the model exactly once, after at most
    one search (with the raw prompt and [top = 3]) and before at most one
    upload (as text/plain, under the simulated name); the upload is made
    only when the model answered, a store is configured, the name and the
    content could be built and the content could be encoded in UTF-8. *)
Theorem services_are_called_once_in_order
    (rt : Runtime) (app : Services) (request : Request) (d : dict)
    (user_question : json) :
  get_json request = Return (JObj d) ->
  dict_get d "prompt" = Some user_question ->
  truthy user_question = true ->
  service_calls (fst (chat_handler rt app request)) =
  match search_service app with
  | Some _ => [SearchCall user_question 3]
  | None => []
  end ++
  CompletionCall (messages_sent rt app user_question) ::
  match completion_call rt app user_question, blob_service app with
  | Return completion, Some _ =>
      upload_made rt user_question (answer_text completion)
                  (snd (retrieved rt app user_question))
  | _, _ => []
  end.
Proof.
  intros G P T.
  rewrite (chat_handler_prompt rt app request d user_question G P T).
  apply answer_question_calls.
Qed.

Lemma services_are_called_once_in_order_witness :
  service_calls (fst (chat_handler sample_runtime mock_services test_request)) =
  [ SearchCall test_prompt 3;
    CompletionCall (messages_sent sample_runtime mock_services test_prompt);
    UploadCall
      (simulated_content sample_runtime test_prompt (answer_text mock_completion)
         "ESG_Policy.pdf")
      "generated_docs/response_What_is_the_fund's_E_0a1b2c3d.docx" "text/plain" ].
Proof.
  exact (services_are_called_once_in_order sample_runtime mock_services
           test_request test_body test_prompt eq_refl eq_refl eq_refl).
Defined.

(** ** The context block and the source files of step 1 *)

Lemma append_assoc (a b c : string) : (a +:+ b) +:+ c = a +:+ b +:+ c.
Proof. induction a as [|x a IH]; cbn; [reflexivity|now rewrite IH]. Qed.

Lemma append_empty (a : string) : a +:+ "" = a.
Proof. induction a as [|x a IH]; cbn; [reflexivity|now rewrite IH]. Qed.

Section Context.

Variable rt : Runtime.

Lemma collect_snippets_well_formed (results : list json) :
  forall (search_context : string) (source_files : source_set rt),
    forallb well_formed_result results = true ->
    snd (collect_snippets rt results search_context source_files) =
    Return (search_context +:+ result_blocks rt results).
Proof.
  induction results as [|result rest IH]; intros search_context source_files H.
  - cbn. now rewrite append_empty.
  - cbn [forallb] in H. apply andb_true_iff in H as [W H].
    destruct result as [| | | | |d]; try discriminate W.
    cbn [collect_snippets py_get]. cbn [well_formed_result] in W.
    unfold dict_get_default in W.
    destruct (dict_get d "sourceFile") as [source_file|] eqn:S.
    + rewrite W, (IH _ _ H). cbn [result_blocks fold_right result_block].
      unfold dict_get_default. rewrite S. now rewrite append_assoc.
    + cbn [hashable]. rewrite (IH _ _ H). cbn [result_blocks fold_right result_block].
      unfold dict_get_default. rewrite S. now rewrite append_assoc.
Qed.

Lemma added_sources_well_formed (results : list json) :
  forallb well_formed_result results = true ->
  added_sources results = map result_source results.
Proof.
  induction results as [|result rest IH]; intros H; [reflexivity|].
  cbn [forallb] in H. apply andb_true_iff in H as [W H].
  destruct result as [| | | | |d]; try discriminate W.
  cbn [added_sources py_get map result_source]. cbn [well_formed_result] in W.
  unfold dict_get_default in *.
  destruct (dict_get d "sourceFile") as [source_file|];
    [rewrite W|cbn [hashable]]; now rewrite (IH H).
Qed.

(** The loop stops at the first result it cannot process, with what it had
    added to the set before. *)
Lemma collect_snippets_stops (good : list json) (bad : json) (rest : list json) :
  forall (search_context : string) (source_files : source_set rt),
    forallb well_formed_result good = true ->
    well_formed_result bad = false ->
    (exists e, snd (collect_snippets rt (good ++ bad :: rest) search_context
                      source_files) = Raise e) /\
    fst (collect_snippets rt (good ++ bad :: rest) search_context source_files) =
    fst (collect_snippets rt good search_context source_files).
Proof.
  induction good as [|result good IH]; intros search_context source_files H B.
  - cbn [List.app collect_snippets].
    destruct bad as [| | | | |d]; cbn [py_get fst snd];
      try (split; [now eexists|reflexivity]).
    cbn [well_formed_result] in B. unfold dict_get_default in B.
    destruct (dict_get d "sourceFile") as [source_file|];
      [rewrite B|discriminate B].
    split; [now eexists|reflexivity].
  - cbn [forallb] in H. apply andb_true_iff in H as [W H].
    destruct result as [| | | | |d]; try discriminate W.
    cbn [List.app collect_snippets py_get]. cbn [well_formed_result] in W.
    unfold dict_get_default in W.
    destruct (dict_get d "sourceFile") as [source_file|];
      [rewrite W|cbn [hashable]]; now apply IH.
Qed.

End Context.

Lemma use_search_results_found (rt : Runtime) (fields : dict)
    (result : json) (rest : list json) :
  dict_get fields "results" = Some (JArr (result :: rest)) ->
  use_search_results rt (JObj fields) =
  collect_snippets rt (result :: rest) snippets_header (set_new (rt_set rt)).
Proof.
  intros H. unfold use_search_results, py_and.
  assert (N : truthy (JObj fields) = true).
  { destruct fields; [discriminate H|reflexivity]. }
  rewrite N. cbn [py_getitem]. rewrite H. reflexivity.
Qed.

(** X3: When every result can be processed, the system message is the system
    prompt, the header of the snippets and one block for each result, in
    the order of the results; the user message is the prompt as it came. *)
Theorem context_lists_every_snippet
    (rt : Runtime) (app : Services) (user_question : json) search
    (fields : dict) (result : json) (rest : list json) :
  search_service app = Some search ->
  snd (search user_question 3) = Return (JObj fields) ->
  dict_get fields "results" = Some (JArr (result :: rest)) ->
  forallb well_formed_result (result :: rest) = true ->
  messages_sent rt app user_question =
  [ SystemMessage (SYSTEM_PROMPT app +:+ snippets_header +:+
                   result_blocks rt (result :: rest));
    UserMessage user_question ].
Proof.
  intros S F H W. unfold messages_sent.
  rewrite (retrieved_found rt app user_question search (JObj fields) S F).
  rewrite (use_search_results_found rt fields result rest H).
  rewrite (pair_eta (collect_snippets rt (result :: rest) snippets_header
                       (set_new (rt_set rt)))).
  rewrite (collect_snippets_well_formed rt (result :: rest) _ _ W).
  reflexivity.
Qed.

Lemma context_lists_every_snippet_witness :
  messages_sent sample_runtime (services_finding unsorted_results) test_prompt =
  [ SystemMessage
      ("You are a helpful AI assistant." +:+ nl +:+ nl +:+
       "Relevant Document Snippets:" +:+ nl +:+
       nl +:+ "---" +:+ nl +:+ "Source: b.pdf" +:+ nl +:+
       "Snippet: second file" +:+ nl +:+ "---" +:+
       nl +:+ "---" +:+ nl +:+ "Source: a.pdf" +:+ nl +:+
       "Snippet: first file" +:+ nl +:+ "---");
    UserMessage test_prompt ].
Proof.
  exact (context_lists_every_snippet sample_runtime (services_finding unsorted_results)
           test_prompt
           (fun _ _ => ret (JObj [("count", JInt 2); ("results", JArr unsorted_results)]))
           [("count", JInt 2); ("results", JArr unsorted_results)]
           _ _ eq_refl eq_refl eq_refl eq_refl).
Defined.

(** X4: When the search returns a false value (None, an empty dict), or a dict
    whose results are false (an empty list, null), the context says that no
    relevant documents were found and no source file is collected. *)
Theorem nothing_found_is_said_so
    (rt : Runtime) (app : Services) (user_question : json) search
    (search_results : json) :
  search_service app = Some search ->
  snd (search user_question 3) = Return search_results ->
  (truthy search_results = false \/
   exists fields found,
     search_results = JObj fields /\
     dict_get fields "results" = Some found /\ truthy found = false) ->
  messages_sent rt app user_question =
    [ SystemMessage (SYSTEM_PROMPT app +:+ no_documents_context);
      UserMessage user_question ] /\
  set_iter (rt_set rt) (snd (retrieved rt app user_question)) = [].
Proof.
  intros S F H.
  assert (R : retrieved rt app user_question =
              (no_documents_context, set_new (rt_set rt))).
  { rewrite (retrieved_found rt app user_question search search_results S F).
    unfold use_search_results, py_and.
    destruct H as [H|(fields & found & -> & H & T)].
    - now rewrite H, H.
    - assert (N : truthy (JObj fields) = true).
      { destruct fields; [discriminate H|reflexivity]. }
      rewrite N. cbn [py_getitem]. now rewrite H, T. }
  unfold messages_sent. rewrite R. split; [reflexivity|apply set_iter_new].
Qed.

Lemma nothing_found_is_said_so_witness :
  messages_sent sample_runtime (services_finding []) test_prompt =
    [ SystemMessage (SYSTEM_PROMPT (services_finding []) +:+ no_documents_context);
      UserMessage test_prompt ] /\
  set_iter (rt_set sample_runtime)
    (snd (retrieved sample_runtime (services_finding []) test_prompt)) = [].
Proof.
  apply (nothing_found_is_said_so sample_runtime (services_finding []) test_prompt
           (fun _ _ => ret (JObj [("count", JInt 2); ("results", JArr [])]))
           (JObj [("count", JInt 2); ("results", JArr [])]) eq_refl eq_refl).
  right. exists [("count", JInt 2); ("results", JArr [])], (JArr []).
  repeat split.
Defined.

(** X5: When the loop fails at a result after it has processed others, the
    context is replaced by the text of the failed retrieval, but the source
    files added before the failure stay in the set: the 200 response lists
    them under sources, each once. *)
Theorem sources_survive_a_failed_retrieval
    (rt : Runtime) (app : Services) (request : Request) (d : dict)
    (user_question : json) search (fields : dict)
    (good : list json) (bad : json) (rest : list json)
    (completion : ChatCompletions) :
  get_json request = Return (JObj d) ->
  dict_get d "prompt" = Some user_question ->
  truthy user_question = true ->
  search_service app = Some search ->
  snd (search user_question 3) = Return (JObj fields) ->
  dict_get fields "results" = Some (JArr (good ++ bad :: rest)) ->
  forallb well_formed_result good = true ->
  well_formed_result bad = false ->
  completion_call rt app user_question = Return completion ->
  messages_sent rt app user_question =
    [ SystemMessage (SYSTEM_PROMPT app +:+ search_error_context);
      UserMessage user_question ] /\
  exists response sources,
    snd (chat_handler rt app request) = Return response /\
    status response = 200 /\
    field "sources" response = Some (JArr sources) /\
    Permutation sources (unique (map result_source good)).
Proof.
  intros G P T S F H W B C.
  assert (N : exists first others, good ++ bad :: rest = first :: others).
  { destruct good; cbn; now eexists; eexists. }
  destruct N as (first & others & N).
  destruct (collect_snippets_stops rt good bad rest snippets_header
              (set_new (rt_set rt)) W B) as [[e E] K].
  assert (R : retrieved rt app user_question =
              (search_error_context,
               fst (collect_snippets rt good snippets_header (set_new (rt_set rt))))).
  { rewrite (retrieved_found rt app user_question search (JObj fields) S F).
    rewrite N in H. rewrite (use_search_results_found rt fields first others H).
    rewrite <- N.
    rewrite (pair_eta (collect_snippets rt (good ++ bad :: rest) snippets_header
                         (set_new (rt_set rt)))), E, K.
    reflexivity. }
  split.
  - unfold messages_sent. now rewrite R.
  - rewrite (chat_handler_prompt rt app request d user_question G P T).
    destruct (answer_question_answered rt app user_question completion C)
      as (document_url & _ & A).
    rewrite A, R. cbn [fst snd]. eexists. eexists.
    split; [reflexivity|]. split; [reflexivity|]. split; [reflexivity|].
    rewrite <- (added_sources_well_formed good W).
    apply collect_snippets_sources. now rewrite set_iter_new.
Qed.

Lemma sources_survive_a_failed_retrieval_witness :
  messages_sent sample_runtime (services_finding partly_broken_results) test_prompt =
    [ SystemMessage (SYSTEM_PROMPT (services_finding partly_broken_results)
                     +:+ search_error_context);
      UserMessage test_prompt ] /\
  exists response sources,
    snd (chat_handler sample_runtime (services_finding partly_broken_results)
           test_request) = Return response /\
    status response = 200 /\
    field "sources" response = Some (JArr sources) /\
    Permutation sources [JStr "a.pdf"].
Proof.
  exact (sources_survive_a_failed_retrieval sample_runtime
           (services_finding partly_broken_results) test_request test_body test_prompt
           (fun _ _ => ret (JObj [("count", JInt 2);
                                  ("results", JArr partly_broken_results)]))
           [("count", JInt 2); ("results", JArr partly_broken_results)]
           [snippet "a.pdf" "first file"] (JStr "not a document")
           [snippet "b.pdf" "second file"] mock_completion
           eq_refl eq_refl eq_refl eq_refl eq_refl eq_refl eq_refl eq_refl eq_refl).
Defined.

(** ** The simulated document of step 4 *)

Lemma no_upload_service_calls (t : list event) :
  no_upload t = no_upload (service_calls t).
Proof.
  induction t as [|ev t IH]; [reflexivity|].
  destruct ev;
    cbn [service_calls filter is_service_call no_upload forallb is_upload negb andb];
    first [exact IH | reflexivity].
Qed.

Lemma question_fragment_not_string (user_question : json) :
  is_string user_question = false ->
  exists e, question_fragment user_question = Raise e.
Proof. destruct user_question; intros H; try discriminate H; now eexists. Qed.

Lemma upload_made_not_string (rt : Runtime) (user_question ai_response_text : json)
    (source_files : source_set rt) :
  is_string user_question = false ->
  upload_made rt user_question ai_response_text source_files = [].
Proof.
  intros H. unfold upload_made.
  destruct (question_fragment_not_string user_question H) as [e E]. now rewrite E.
Qed.

(** The document URL of a 200 response is what step 4 ended with. *)
Lemma answered_document_url
    (rt : Runtime) (app : Services) (user_question : json)
    (completion : ChatCompletions) (document_url : json) :
  completion_call rt app user_question = Return completion ->
  snd (store_document rt app user_question (answer_text completion)
         (snd (retrieved rt app user_question))) = Return document_url ->
  exists response,
    snd (answer_question rt app user_question) = Return response /\
    status response = 200 /\
    field "ai_response" response = Some (answer_text completion) /\
    field "document_url" response = Some document_url.
Proof.
  intros C U.
  destruct (answer_question_answered rt app user_question completion C)
    as (document_url' & U' & E).
  rewrite U in U'. injection U' as <-.
  rewrite E. eexists. repeat split.
Qed.

Lemma store_document_raised
    (rt : Runtime) (app : Services) (user_question ai_response_text : json)
    (source_files : source_set rt) :
  upload_made rt user_question ai_response_text source_files = [] ->
  snd (store_document rt app user_question ai_response_text source_files)
  = Return JNull.
Proof.
  intros H. unfold store_document.
  destruct (blob_service app) as [upload|]; [|reflexivity].
  unfold upload_made in H. unfold upload_simulated_document.
  destruct (question_fragment user_question) as [fragment|e]; [|reflexivity].
  destruct (sources_text rt source_files) as [sources|e];
    [|rewrite bind_return; reflexivity].
  rewrite !bind_return.
  fold (simulated_content rt user_question ai_response_text sources).
  destruct (encode_utf8 (simulated_content rt user_question ai_response_text sources))
    as [content|e]; [discriminate H|reflexivity].
Qed.

(** X6: A prompt that is true but no string (a number, true, a list, an
    object) is answered like any other, but step 4 fails on slicing it
    before anything is uploaded: the document URL is null. *)
Theorem prompt_that_is_no_string_is_not_uploaded
    (rt : Runtime) (app : Services) (request : Request) (d : dict)
    (user_question : json) (completion : ChatCompletions) :
  get_json request = Return (JObj d) ->
  dict_get d "prompt" = Some user_question ->
  truthy user_question = true ->
  is_string user_question = false ->
  completion_call rt app user_question = Return completion ->
  no_upload (fst (chat_handler rt app request)) = true /\
  exists response,
    snd (chat_handler rt app request) = Return response /\
    status response = 200 /\
    field "ai_response" response = Some (answer_text completion) /\
    field "document_url" response = Some JNull.
Proof.
  intros G P T N C.
  rewrite (chat_handler_prompt rt app request d user_question G P T).
  pose proof (upload_made_not_string rt user_question (answer_text completion)
                (snd (retrieved rt app user_question)) N) as M.
  split.
  - rewrite no_upload_service_calls, answer_question_calls, C, M.
    destruct (search_service app), (blob_service app); reflexivity.
  - apply (answered_document_url rt app user_question completion JNull C).
    now apply store_document_raised.
Qed.

Lemma prompt_that_is_no_string_is_not_uploaded_witness :
  no_upload (fst (chat_handler sample_runtime mock_services
                    {| get_json := Return (JObj [("prompt", JInt 42)]) |})) = true /\
  exists response,
    snd (chat_handler sample_runtime mock_services
           {| get_json := Return (JObj [("prompt", JInt 42)]) |}) = Return response /\
    status response = 200 /\
    field "ai_response" response = Some (answer_text mock_completion) /\
    field "document_url" response = Some JNull.
Proof.
  exact (prompt_that_is_no_string_is_not_uploaded sample_runtime mock_services
           {| get_json := Return (JObj [("prompt", JInt 42)]) |}
           [("prompt", JInt 42)] (JInt 42) mock_completion
           eq_refl eq_refl eq_refl eq_refl eq_refl).
Defined.

Lemma take_codepoints_count (s : string) :
  forall n, count_codepoints (take_codepoints n s) <= n.
Proof.
  induction s as [|c s IH]; intros n; cbn [take_codepoints count_codepoints]; [lia|].
  destruct (is_continuation c) eqn:K.
  - cbn [count_codepoints]. rewrite K. apply IH.
  - destruct n as [|n]; cbn [count_codepoints]; [lia|].
    rewrite K. specialize (IH n). lia.
Qed.

Lemma take_codepoints_all (s : string) :
  forall n, count_codepoints s <= n -> take_codepoints n s = s.
Proof.
  induction s as [|c s IH]; intros n H; cbn [take_codepoints]; [reflexivity|].
  cbn [count_codepoints] in H.
  destruct (is_continuation c).
  - now rewrite IH.
  - destruct n as [|n]; [lia|]. rewrite IH; [reflexivity|lia].
Qed.

Lemma replace_space_count (s : string) :
  count_codepoints (replace_char " " "_" s) = count_codepoints s.
Proof.
  induction s as [|c s IH]; cbn [replace_char count_codepoints]; [reflexivity|].
  rewrite IH. destruct (Ascii.eqb c " ") eqn:E; [|reflexivity].
  apply Ascii.eqb_eq in E. now subst c.
Qed.

Lemma replace_space_leaves_none (s : string) :
  has_char " " (replace_char " " "_" s) = false.
Proof.
  induction s as [|c s IH]; cbn [replace_char has_char]; [reflexivity|].
  rewrite IH. destruct (Ascii.eqb c " ") eqn:E; [reflexivity|].
  now rewrite E.
Qed.

Lemma replace_space_keeps (c : ascii) (s : string) :
  c <> " "%char -> c <> "_"%char ->
  has_char c (replace_char " " "_" s) = has_char c s.
Proof.
  intros S U. induction s as [|x s IH]; cbn [replace_char has_char]; [reflexivity|].
  rewrite IH. destruct (Ascii.eqb x " ") eqn:E; [|reflexivity].
  apply Ascii.eqb_eq in E. subst x.
  f_equal. transitivity false.
  - apply Ascii.eqb_neq. congruence.
  - symmetry. apply Ascii.eqb_neq. congruence.
Qed.

(** X7: The part of the blob name taken from a string prompt has no space and
    at most twenty code points; it is the whole prompt, spaces replaced,
    when the prompt has at most twenty code points; every character other
    than the space and the underscore is kept as it is, a slash too. *)
Theorem blob_name_fragment_is_bounded (prompt : string) :
  exists fragment,
    question_fragment (JStr prompt) = Return fragment /\
    has_char " " fragment = false /\
    count_codepoints fragment <= 20 /\
    (count_codepoints prompt <= 20 -> fragment = replace_char " " "_" prompt) /\
    (forall c, c <> " "%char -> c <> "_"%char ->
               has_char c fragment = has_char c (take_codepoints 20 prompt)).
Proof.
  eexists. split; [reflexivity|]. split; [apply replace_space_leaves_none|].
  split; [|split].
  - rewrite replace_space_count. apply take_codepoints_count.
  - intros H. now rewrite take_codepoints_all.
  - intros c S U. now apply replace_space_keeps.
Qed.

Lemma blob_name_fragment_is_bounded_witness :
  question_fragment (JStr "ESG / 2024 policy") = Return "ESG_/_2024_policy".
Proof.
  destruct (blob_name_fragment_is_bounded "ESG / 2024 policy")
    as (fragment & F & _ & _ & A & _).
  rewrite F. f_equal. apply A. cbn. lia.
Defined.

Lemma str_items_not_strings (values : list json) :
  forallb is_string values = false ->
  exists e, str_items values = Raise e.
Proof.
  induction values as [|v values IH]; intros H; [discriminate H|].
  cbn [forallb] in H.
  destruct v; cbn [str_items]; try (now eexists).
  cbn [is_string andb] in H. destruct (IH H) as [e E]. rewrite E. now eexists.
Qed.

Lemma sources_text_not_strings (rt : Runtime) (source_files : source_set rt) :
  forallb is_string (set_iter (rt_set rt) source_files) = false ->
  exists e, sources_text rt source_files = Raise e.
Proof.
  intros H. unfold sources_text.
  destruct (set_iter (rt_set rt) source_files) as [|v l] eqn:E; [discriminate H|].
  unfold py_join. destruct (str_items_not_strings (v :: l) H) as [e N].
  rewrite N. now eexists.
Qed.

Lemma store_document_uploaded
    (rt : Runtime) (app : Services) upload (user_question ai_response_text : json)
    (source_files : source_set rt) (content name : string) :
  blob_service app = Some upload ->
  upload_made rt user_question ai_response_text source_files =
    [UploadCall content name "text/plain"] ->
  snd (store_document rt app user_question ai_response_text source_files) =
  Return match snd (upload content name "text/plain") with
         | Return document_url => document_url
         | Raise _ => JNull
         end.
Proof.
  intros B H. unfold store_document. rewrite B.
  unfold upload_made in H. unfold upload_simulated_document.
  destruct (question_fragment user_question) as [fragment|e]; [|discriminate H].
  destruct (sources_text rt source_files) as [sources|e]; [|discriminate H].
  rewrite !bind_return.
  fold (simulated_content rt user_question ai_response_text sources).
  destruct (encode_utf8 (simulated_content rt user_question ai_response_text sources))
    as [encoded|e]; [|discriminate H].
  injection H as <- <-. rewrite bind_return.
  fold (simulated_blob_name rt fragment).
  destruct (upload encoded (simulated_blob_name rt fragment) "text/plain")
    as [t [document_url|e]]; reflexivity.
Qed.

Lemma has_surrogate_append (a b : string) :
  match b with
  | String c _ => is_surrogate_second c
  | EmptyString => false
  end = false ->
  has_surrogate (a +:+ b) = has_surrogate a || has_surrogate b.
Proof.
  intros H. induction a as [|c a IH]; [reflexivity|].
  cbn [String.append has_surrogate]. rewrite IH, orb_assoc. do 2 f_equal.
  destruct a; [cbn [String.append]; now rewrite H | reflexivity].
Qed.

Lemma has_surrogate_join (names : list string) :
  existsb has_surrogate names = false ->
  has_surrogate (join ", " names) = false.
Proof.
  induction names as [|p rest IH]; intros H; [reflexivity|].
  cbn [existsb] in H. apply orb_false_iff in H as [P H].
  destruct rest as [|q rest]; [exact P|].
  change (join ", " (p :: q :: rest)) with (p +:+ ", " +:+ join ", " (q :: rest)).
  rewrite has_surrogate_append by reflexivity. rewrite P.
  cbn [String.append has_surrogate Ascii.eqb Bool.eqb andb orb].
  exact (IH H).
Qed.

Lemma str_items_names (names : list string) :
  str_items (map JStr names) = Return names.
Proof.
  induction names as [|p rest IH]; [reflexivity|].
  cbn [map str_items]. now rewrite IH.
Qed.

(** The content of the simulated document can be encoded when its three
    parts can. *)
Lemma simulated_content_encodes (rt : Runtime) (user_question ai_response_text : json)
    (sources : string) :
  has_surrogate (py_str rt user_question) = false ->
  has_surrogate (py_str rt ai_response_text) = false ->
  has_surrogate sources = false ->
  encode_utf8 (simulated_content rt user_question ai_response_text sources) =
  Return (simulated_content rt user_question ai_response_text sources).
Proof.
  intros Q A S. unfold encode_utf8.
  assert (H : has_surrogate (simulated_content rt user_question ai_response_text
                               sources) = false); [|now rewrite H].
  unfold simulated_content, nl.
  cbn [String.append has_surrogate Ascii.eqb Bool.eqb andb orb].
  rewrite has_surrogate_append by reflexivity. rewrite Q.
  cbn [String.append has_surrogate Ascii.eqb Bool.eqb andb orb].
  rewrite has_surrogate_append by reflexivity. rewrite A.
  cbn [String.append has_surrogate Ascii.eqb Bool.eqb andb orb].
  exact S.
Qed.

Lemma uploads_are_service_calls (t : list event) :
  filter is_upload (service_calls t) = filter is_upload t.
Proof.
  induction t as [|ev t IH]; [reflexivity|].
  destruct ev; cbn [service_calls filter is_service_call is_upload];
    fold (service_calls t); now rewrite ?IH.
Qed.

(** X8: For a prompt, an answer and source files that are strings without a
    surrogate code point, with a store configured and an answer from the
    model, the handler calls [upload_document] exactly once: with the text
    of the question, the answer and the source files joined by commas (N/A
    when there is none), under the name made of the first twenty code
    points of the prompt, spaces replaced, and the random digits, as
    text/plain.  The document URL of the response is what that call
    returned, or null when it raised. *)
Theorem document_url_is_what_the_upload_returned
    (rt : Runtime) (app : Services) (request : Request) (d : dict)
    (prompt : string) upload (completion : ChatCompletions) (names : list string) :
  get_json request = Return (JObj d) ->
  dict_get d "prompt" = Some (JStr prompt) ->
  truthy (JStr prompt) = true ->
  completion_call rt app (JStr prompt) = Return completion ->
  blob_service app = Some upload ->
  set_iter (rt_set rt) (snd (retrieved rt app (JStr prompt))) = map JStr names ->
  has_surrogate prompt = false ->
  has_surrogate (py_str rt (answer_text completion)) = false ->
  existsb has_surrogate names = false ->
  let content :=
    "Question: " +:+ prompt +:+ nl +:+ nl +:+
    "Answer: " +:+ py_str rt (answer_text completion) +:+ nl +:+ nl +:+
    "Sources: " +:+ match names with
                    | [] => "N/A"
                    | _ => join ", " names
                    end in
  let name :=
    "generated_docs/response_" +:+ replace_char " " "_" (take_codepoints 20 prompt) +:+
    "_" +:+ rt_urandom_hex rt +:+ ".docx" in
  filter is_upload (fst (chat_handler rt app request)) =
    [UploadCall content name "text/plain"] /\
  exists response,
    snd (chat_handler rt app request) = Return response /\
    status response = 200 /\
    field "document_url" response =
      Some match snd (upload content name "text/plain") with
           | Return document_url => document_url
           | Raise _ => JNull
           end.
Proof.
  intros G P T C B S Q A N content name.
  set (sources := match names with [] => "N/A" | _ => join ", " names end).
  assert (E : sources_text rt (snd (retrieved rt app (JStr prompt))) = Return sources).
  { unfold sources_text. rewrite S. unfold sources.
    destruct names as [|p rest]; [reflexivity|].
    cbn [map]. unfold py_join.
    change (JStr p :: map JStr rest) with (map JStr (p :: rest)).
    now rewrite str_items_names. }
  assert (H : has_surrogate sources = false).
  { unfold sources. destruct names as [|p rest]; [reflexivity|].
    now apply has_surrogate_join. }
  assert (M : upload_made rt (JStr prompt) (answer_text completion)
                (snd (retrieved rt app (JStr prompt))) =
              [UploadCall content name "text/plain"]).
  { unfold upload_made. cbn [question_fragment]. rewrite E.
    now rewrite (simulated_content_encodes rt (JStr prompt) (answer_text completion)
                   sources Q A H). }
  rewrite (chat_handler_prompt rt app request d (JStr prompt) G P T).
  split.
  - rewrite <- uploads_are_service_calls, answer_question_calls, C, B, M.
    rewrite filter_app.
    destruct (search_service app); reflexivity.
  - destruct (answered_document_url rt app (JStr prompt) completion _ C
                (store_document_uploaded rt app upload _ _ _ _ _ B M))
      as (response & R & St & _ & U).
    exists response. repeat split; assumption.
Qed.

Lemma document_url_is_what_the_upload_returned_witness :
  filter is_upload (fst (chat_handler sample_runtime mock_services test_request)) =
    [ UploadCall
        ("Question: What is the fund's ESG policy?" +:+ nl +:+ nl +:+
         "Answer: Based on the ESG Policy, the fund emphasizes responsible investment."
         +:+ nl +:+ nl +:+ "Sources: ESG_Policy.pdf")
        "generated_docs/response_What_is_the_fund's_E_0a1b2c3d.docx" "text/plain" ] /\
  exists response,
    snd (chat_handler sample_runtime mock_services test_request) = Return response /\
    field "document_url" response =
      Some (JStr "https://example.blob.core.windows.net/container/document.docx").
Proof.
  destruct (document_url_is_what_the_upload_returned sample_runtime mock_services
              test_request test_body "What is the fund's ESG policy?"
              (fun _ _ _ =>
                 ret (JStr "https://example.blob.core.windows.net/container/document.docx"))
              mock_completion ["ESG_Policy.pdf"]
              eq_refl eq_refl eq_refl eq_refl eq_refl eq_refl eq_refl eq_refl eq_refl)
    as (F & response & R & _ & U).
  split; [exact F|]. exists response. split; [exact R|exact U].
Defined.

Lemma forallb_permutation {A} (f : A -> bool) (l l' : list A) :
  Permutation l l' -> forallb f l = forallb f l'.
Proof.
  induction 1; cbn.
  - reflexivity.
  - now rewrite IHPermutation.
  - now rewrite !andb_assoc, (andb_comm (f y)).
  - congruence.
Qed.

Lemma py_in_strings (v : json) (l : list json) :
  forallb is_string l = true -> is_string v = false -> py_in v l = false.
Proof.
  intros H N. unfold py_in.
  induction l as [|x l IH]; [reflexivity|].
  cbn [forallb] in H. apply andb_true_iff in H as [S H].
  cbn [existsb]. rewrite (IH H), orb_false_r.
  destruct x; try discriminate S. destruct v; try discriminate N; reflexivity.
Qed.

Lemma unique_strings (values : list json) :
  forall seen,
    forallb is_string (fold_left (fun seen v => ordered_add v seen) values seen) =
    forallb is_string seen && forallb is_string values.
Proof.
  induction values as [|v values IH]; intros seen; cbn [fold_left forallb].
  - now rewrite andb_true_r.
  - rewrite IH. unfold ordered_add.
    destruct (py_in v seen) eqn:E.
    + destruct (forallb is_string seen) eqn:S; [|reflexivity].
      destruct (is_string v) eqn:N; [reflexivity|].
      now rewrite (py_in_strings v seen S N) in E.
    + rewrite forallb_app. cbn [forallb]. now rewrite andb_true_r, andb_assoc.
Qed.

(** X9: When a result that can be processed has a source file that is no
    string (null in the index, a number), joining the source files fails
    in step 4 before anything is uploaded: the request is answered with
    200 and a null document URL, whatever store is configured. *)
Theorem source_that_is_no_string_suppresses_upload
    (rt : Runtime) (app : Services) (request : Request) (d : dict)
    (user_question : json) search (fields : dict) (results : list json)
    (completion : ChatCompletions) :
  get_json request = Return (JObj d) ->
  dict_get d "prompt" = Some user_question ->
  truthy user_question = true ->
  search_service app = Some search ->
  snd (search user_question 3) = Return (JObj fields) ->
  dict_get fields "results" = Some (JArr results) ->
  forallb well_formed_result results = true ->
  forallb is_string (map result_source results) = false ->
  completion_call rt app user_question = Return completion ->
  no_upload (fst (chat_handler rt app request)) = true /\
  exists response,
    snd (chat_handler rt app request) = Return response /\
    status response = 200 /\
    field "ai_response" response = Some (answer_text completion) /\
    field "document_url" response = Some JNull.
Proof.
  intros G P T S F H W N C.
  assert (M : upload_made rt user_question (answer_text completion)
                (snd (retrieved rt app user_question)) = []).
  { unfold upload_made.
    destruct (question_fragment user_question) as [fragment|e]; [|reflexivity].
    destruct (sources_text_not_strings rt (snd (retrieved rt app user_question)))
      as [e E]; [|now rewrite E].
    rewrite (forallb_permutation is_string _ _
               (retrieved_sources rt app user_question search fields results S F H)).
    unfold unique. rewrite unique_strings, (added_sources_well_formed results W).
    exact N. }
  rewrite (chat_handler_prompt rt app request d user_question G P T).
  split.
  - rewrite no_upload_service_calls, answer_question_calls, C, M.
    destruct (search_service app), (blob_service app); reflexivity.
  - apply (answered_document_url rt app user_question completion JNull C).
    now apply store_document_raised.
Qed.

Lemma source_that_is_no_string_suppresses_upload_witness :
  no_upload (fst (chat_handler sample_runtime
                    (services_finding_and_storing null_source_results)
                    test_request)) = true /\
  exists response,
    snd (chat_handler sample_runtime (services_finding_and_storing null_source_results)
           test_request) = Return response /\
    status response = 200 /\
    field "ai_response" response = Some (answer_text mock_completion) /\
    field "document_url" response = Some JNull.
Proof.
  exact (source_that_is_no_string_suppresses_upload sample_runtime
           (services_finding_and_storing null_source_results)
           test_request test_body test_prompt
           (fun _ _ => ret (JObj [("count", JInt 2);
                                  ("results", JArr null_source_results)]))
           [("count", JInt 2); ("results", JArr null_source_results)]
           null_source_results mock_completion
           eq_refl eq_refl eq_refl eq_refl eq_refl eq_refl eq_refl eq_refl eq_refl).
Defined.

(** ** search_service.py *)

Lemma extract_document_complete (result : dict) :
  has_required_keys result = true ->
  extract_document result = Return (document_of result).
Proof.
  unfold has_required_keys, extract_document, document_of, dict_getitem,
    dict_get_default.
  destruct (dict_get result "id"); [|discriminate].
  destruct (dict_get result "@search.score"); [|discriminate].
  reflexivity.
Qed.

Lemma extract_document_incomplete (result : dict) :
  has_required_keys result = false ->
  extract_document result = Raise (KeyError "id") \/
  extract_document result = Raise (KeyError "@search.score").
Proof.
  unfold has_required_keys, extract_document, dict_getitem.
  destruct (dict_get result "id"); [|now left].
  destruct (dict_get result "@search.score"); [discriminate|now right].
Qed.

Lemma extract_documents_complete (results : list dict) :
  forallb has_required_keys results = true ->
  extract_documents results None = Return (map document_of results).
Proof.
  induction results as [|result rest IH]; intros H; [reflexivity|].
  cbn [forallb] in H. apply andb_true_iff in H as [R H].
  cbn [extract_documents map].
  now rewrite (extract_document_complete result R), (IH H).
Qed.

Lemma extract_documents_incomplete (results : list dict) (failure : option exn) :
  forallb has_required_keys results = false ->
  extract_documents results failure = Raise (KeyError "id") \/
  extract_documents results failure = Raise (KeyError "@search.score").
Proof.
  induction results as [|result rest IH]; intros H; [discriminate H|].
  cbn [forallb] in H. cbn [extract_documents].
  destruct (has_required_keys result) eqn:R.
  - rewrite (extract_document_complete result R).
    destruct (IH H) as [E|E]; rewrite E; [now left|now right].
  - destruct (extract_document_incomplete result R) as [E|E]; rewrite E;
      [now left|now right].
Qed.

(** X10: When the index answers, every result has an id and a score, the
    iteration ends without an error and the count is available,
    [search_documents] prints nothing and returns the count and one
    document for each result, in the order of the index, each with the
    seven keys id, title, content, source, sourceFile, score and captions;
    a key the index left out has the value "Untitled" for the title, the
    empty string for content, source and sourceFile, and the empty list for
    the captions. *)
Theorem search_documents_returns_every_document
    (search_client : SearchClient) (query_text : json)
    (filter_condition : option string) (top : nat)
    (results : SearchItemPaged) (count : json) :
  search_client query_text "semantic" "en-us" "default" filter_condition top true
    = Return results ->
  forallb has_required_keys (yielded results) = true ->
  iteration_error results = None ->
  get_count results = Return count ->
  AzureSearchService.search_documents search_client query_text filter_condition top =
  ([], Return (JObj [ ("count", count);
                      ("results", JArr (map document_of (yielded results))) ])).
Proof.
  intros S K I C. unfold AzureSearchService.search_documents.
  rewrite S, bind_return, I, (extract_documents_complete _ K), bind_return, C.
  reflexivity.
Qed.

Lemma search_documents_returns_every_document_witness :
  AzureSearchService.search_documents (index_with [unlabelled_document])
    test_prompt None 3 =
  ([], Return (JObj [ ("count", JInt 1);
                      ("results", JArr [document_of unlabelled_document]) ])).
Proof.
  exact (search_documents_returns_every_document (index_with [unlabelled_document])
           test_prompt None 3
           {| yielded := [unlabelled_document]; iteration_error := None;
              get_count := Return (JInt 1) |}
           (JInt 1) eq_refl eq_refl eq_refl eq_refl).
Defined.

(** X11: [search_documents] prints a line exactly when it raises, and then one
    line, with the text of the exception it raises; an error of the
    index's [search] is raised on as it is. *)
Theorem search_documents_reports_what_it_raises
    (search_client : SearchClient) (query_text : json)
    (filter_condition : option string) (top : nat) :
  match AzureSearchService.search_documents search_client query_text
          filter_condition top with
  | (printed, Return _) => printed = []
  | (printed, Raise e) => printed = ["Error searching documents: " +:+ exn_text e]
  end /\
  match search_client query_text "semantic" "en-us" "default" filter_condition
          top true with
  | Raise e =>
      snd (AzureSearchService.search_documents search_client query_text
             filter_condition top) = Raise e
  | Return _ => True
  end.
Proof.
  unfold AzureSearchService.search_documents.
  destruct (search_client query_text "semantic" "en-us" "default" filter_condition
              top true) as [results|e]; [|split; reflexivity].
  split; [|exact I]. rewrite bind_return.
  destruct (extract_documents (yielded results) (iteration_error results))
    as [documents|e]; [|reflexivity].
  rewrite bind_return.
  destruct (get_count results) as [count|e]; reflexivity.
Qed.

Lemma extract_documents_first_incomplete
    (complete : list dict) (broken : dict) (rest : list dict) (failure : option exn) :
  forallb has_required_keys complete = true ->
  has_required_keys broken = false ->
  extract_documents (complete ++ broken :: rest) failure =
  Raise (KeyError match dict_get broken "id" with
                  | None => "id"
                  | Some _ => "@search.score"
                  end).
Proof.
  intros K B. induction complete as [|result complete IH].
  - cbn [List.app extract_documents].
    unfold has_required_keys in B. unfold extract_document, dict_getitem.
    destruct (dict_get broken "id"); [|reflexivity].
    destruct (dict_get broken "@search.score"); [discriminate B|reflexivity].
  - cbn [forallb] in K. apply andb_true_iff in K as [R K].
    cbn [List.app extract_documents].
    now rewrite (extract_document_complete result R), (IH K).
Qed.

(** X12: The first result of the index that lacks an id or a score makes the
    whole search fail, whatever the results after it are: the search prints
    one line and raises the KeyError of the key that the result lacks, of
    id when it lacks the id (with or without a score) and of @search.score
    when it has an id and lacks the score. *)
Theorem one_incomplete_result_fails_the_search
    (search_client : SearchClient) (query_text : json)
    (filter_condition : option string) (top : nat) (results : SearchItemPaged)
    (complete : list dict) (broken : dict) (rest : list dict) :
  search_client query_text "semantic" "en-us" "default" filter_condition top true
    = Return results ->
  yielded results = complete ++ broken :: rest ->
  forallb has_required_keys complete = true ->
  has_required_keys broken = false ->
  let key := match dict_get broken "id" with
             | None => "id"
             | Some _ => "@search.score"
             end in
  AzureSearchService.search_documents search_client query_text filter_condition top =
  (["Error searching documents: '" +:+ key +:+ "'"], Raise (KeyError key)).
Proof.
  intros S Y K B key. unfold AzureSearchService.search_documents.
  rewrite S, bind_return, Y.
  rewrite (extract_documents_first_incomplete complete broken rest _ K B).
  fold key. unfold key. destruct (dict_get broken "id"); reflexivity.
Qed.

Lemma one_incomplete_result_fails_the_search_witness :
  AzureSearchService.search_documents
    (index_with [ [("id", JStr "doc1"); ("@search.score", JInt 2)];
                  [("id", JStr "doc2"); ("sourceFile", JStr "b.pdf")];
                  [("@search.score", JInt 1)] ])
    test_prompt None 3 =
  (["Error searching documents: '@search.score'"], Raise (KeyError "@search.score")).
Proof.
  exact (one_incomplete_result_fails_the_search
           (index_with [ [("id", JStr "doc1"); ("@search.score", JInt 2)];
                         [("id", JStr "doc2"); ("sourceFile", JStr "b.pdf")];
                         [("@search.score", JInt 1)] ])
           test_prompt None 3 _
           [ [("id", JStr "doc1"); ("@search.score", JInt 2)] ]
           [("id", JStr "doc2"); ("sourceFile", JStr "b.pdf")]
           [ [("@search.score", JInt 1)] ]
           eq_refl eq_refl eq_refl eq_refl).
Defined.

(** X13: Behind [AzureSearchService] the label of a snippet is the value the
    index has for sourceFile, and the empty string when the index has
    none: the document always carries the key, so the handler reads it and
    not its own default. *)
Theorem search_documents_fixes_the_source_label (result : dict) (document : json) :
  extract_document result = Return document ->
  result_source document = dict_get_default result "sourceFile" (JStr "") /\
  well_formed_result document =
    hashable (dict_get_default result "sourceFile" (JStr "")).
Proof.
  unfold extract_document.
  destruct (dict_getitem result "id") as [id|e]; [|discriminate].
  destruct (dict_getitem result "@search.score") as [score|e]; [|discriminate].
  intros H. injection H as <-. split; reflexivity.
Qed.

Lemma search_documents_fixes_the_source_label_witness :
  result_source (document_of unlabelled_document) = JStr "".
Proof.
  exact (proj1 (search_documents_fixes_the_source_label unlabelled_document
                  (document_of unlabelled_document) eq_refl)).
Defined.

(** ** blob_storage_service.py: the constructor and the other methods *)

Lemma bind_first_event {E A B} (m : W E A) (k : A -> W E B) (ev : E) :
  hd_error (fst m) = Some ev -> hd_error (fst (bind m k)) = Some ev.
Proof.
  destruct m as [t [a|e]]; cbn [fst]; intros H.
  - rewrite bind_run. cbn [fst]. destruct t; [discriminate H|exact H].
  - exact H.
Qed.

Lemma emit_first_event {E B} (ev : E) (k : unit -> W E B) :
  hd_error (fst (bind (emit ev) k)) = Some ev.
Proof. unfold emit. rewrite bind_run. reflexivity. Qed.

(** X14: The constructor checks its settings before it touches the SDK: without
    a container name, and with a container name but neither a connection
    string nor an account name, it raises a ValueError and has made no
    call.  An empty string counts as no setting.  With a connection string
    the service client is made from it, whether or not there is an account
    name; otherwise from the account URL. *)
Theorem blob_constructor_checks_its_settings
    (env : Env) (sdk : BlobSdk) (account_name container connection : option string) :
  (given (container_in_effect env container) = false ->
   BlobStorageService_init env sdk account_name container connection =
   ([], Raise (ValueError "Missing required Blob Storage container name"))) /\
  (given (container_in_effect env container) = true ->
   match service_client_call env sdk account_name connection with
   | None =>
       BlobStorageService_init env sdk account_name container connection =
       ([], Raise (ValueError
                     "Either storage_account_name or connection_string must be provided"))
   | Some (call, _) =>
       hd_error (fst (BlobStorageService_init env sdk account_name container connection))
       = Some call
   end).
Proof.
  unfold BlobStorageService_init, service_client_call, container_in_effect,
    connection_in_effect, account_in_effect.
  split; intros C; rewrite C; cbn [negb]; [reflexivity|].
  destruct (given (or_else connection (env "AZURE_STORAGE_CONNECTION_STRING"))).
  - apply bind_first_event, emit_first_event.
  - destruct (given (or_else account_name (env "AZURE_STORAGE_ACCOUNT_NAME"))).
    + apply bind_first_event, emit_first_event.
    + reflexivity.
Qed.

Lemma blob_constructor_checks_its_settings_witness :
  BlobStorageService_init empty_environment sample_sdk (Some "account") (Some "") None =
    ([], Raise (ValueError "Missing required Blob Storage container name")) /\
  hd_error (fst (BlobStorageService_init storage_environment sample_sdk None None None))
    = Some (FromConnectionString "UseDevelopmentStorage=true").
Proof.
  split.
  - exact (proj1 (blob_constructor_checks_its_settings empty_environment sample_sdk
                    (Some "account") (Some "") None) eq_refl).
  - exact (proj2 (blob_constructor_checks_its_settings storage_environment sample_sdk
                    None None None) eq_refl).
Defined.

(** X15: Once the service client and the container client are there, the
    constructor asks for the properties of the container and creates the
    container only when that fails, whatever the failure; an error of the
    creation is an error of the constructor. *)
Theorem container_is_created_only_when_missing
    (env : Env) (sdk : BlobSdk) (account_name container connection : option string)
    (call : sdk_call) (blob_service_client : BlobServiceClient)
    (container_client : ContainerHandle) :
  given (container_in_effect env container) = true ->
  service_client_call env sdk account_name connection
    = Some (call, Return blob_service_client) ->
  get_container_client blob_service_client
    (setting_text (container_in_effect env container)) = Return container_client ->
  BlobStorageService_init env sdk account_name container connection =
  let service :=
    {| storage_account_name := account_in_effect env account_name;
       container_name := container_in_effect env container;
       connection_string := connection_in_effect env connection;
       container_client_of := container_client |} in
  let looked_up :=
    [ call; GetContainerClient (setting_text (container_in_effect env container));
      GetContainerProperties ] in
  match get_container_properties container_client with
  | Return _ => (looked_up, Return service)
  | Raise _ =>
      (looked_up ++ [CreateContainer],
       match create_container container_client with
       | Return _ => Return service
       | Raise e => Raise e
       end)
  end.
Proof.
  unfold BlobStorageService_init, service_client_call, container_in_effect,
    connection_in_effect, account_in_effect.
  intros C S G. rewrite C. cbn [negb].
  destruct (given (or_else connection (env "AZURE_STORAGE_CONNECTION_STRING"))).
  - injection S as <- S. rewrite S.
    cbn [bind emit lift fst snd List.app]. rewrite G.
    destruct (get_container_properties container_client) as [[]|e];
      [reflexivity|].
    destruct (create_container container_client) as [[]|e']; reflexivity.
  - destruct (given (or_else account_name (env "AZURE_STORAGE_ACCOUNT_NAME")));
      [|discriminate S].
    cbv zeta in S |- *.
    set (account_url := "https://" +:+
           setting_text (or_else account_name (env "AZURE_STORAGE_ACCOUNT_NAME"))
           +:+ ".blob.core.windows.net") in *.
    injection S as <- S. rewrite S.
    cbn [bind emit lift fst snd List.app]. rewrite G.
    destruct (get_container_properties container_client) as [[]|e];
      [reflexivity|].
    destruct (create_container container_client) as [[]|e']; reflexivity.
Qed.

Lemma container_is_created_only_when_missing_witness :
  fst (BlobStorageService_init storage_environment sample_sdk None None None) =
  [ FromConnectionString "UseDevelopmentStorage=true"; GetContainerClient "ddq";
    GetContainerProperties; CreateContainer ].
Proof.
  rewrite (container_is_created_only_when_missing storage_environment sample_sdk
             None None None (FromConnectionString "UseDevelopmentStorage=true")
             {| get_container_client := fun _ => Return absent_container |}
             absent_container eq_refl eq_refl eq_refl).
  reflexivity.
Defined.

(** X16: The three other methods of the blob service never raise: each returns
    its result when every call on the SDK returns, and [None] otherwise. *)
Theorem blob_reads_return_none_on_failure
    (container_client : ContainerHandle) (blob_name : string) (prefix : option string) :
  snd (download_document container_client blob_name) =
    Return match get_blob_client container_client blob_name,
                 download_blob container_client blob_name with
           | Return _, Return download =>
               match readall download with
               | Return content => JStr content
               | Raise _ => JNull
               end
           | _, _ => JNull
           end /\
  snd (list_documents container_client prefix) =
    Return match list_blobs container_client prefix with
           | Return names => JArr (map JStr names)
           | Raise _ => JNull
           end /\
  snd (get_document_url container_client blob_name) =
    Return match get_blob_client container_client blob_name with
           | Return blob_client => JStr (url blob_client)
           | Raise _ => JNull
           end.
Proof.
  unfold download_document, list_documents, get_document_url.
  split; [|split].
  - destruct (get_blob_client container_client blob_name) as [blob_client|e];
      [|reflexivity].
    rewrite bind_return.
    destruct (download_blob container_client blob_name) as [download|e];
      [|reflexivity].
    rewrite bind_return. destruct (readall download); reflexivity.
  - destruct (list_blobs container_client prefix); reflexivity.
  - destruct (get_blob_client container_client blob_name); reflexivity.
Qed.

(** ** app.py: the start of the application *)

Lemma snd_bind_return {E A B} (m : W E A) (k : A -> W E B) (a : A) :
  snd m = Return a -> snd (bind m k) = snd (k a).
Proof. destruct m as [t r]. cbn [snd]. intros ->. now rewrite bind_run. Qed.

Lemma snd_bind_raise {E A B} (m : W E A) (k : A -> W E B) (e : exn) :
  snd m = Raise e -> snd (bind m k) = Raise e.
Proof. destruct m as [t r]. cbn [snd]. now intros ->. Qed.

(** X17: Without the settings of the search service and without a container
    name, the application starts with both services disabled and has not
    touched the storage SDK; a request with a prompt then calls the model
    only, with a context that says the search is not configured. *)
Theorem missing_settings_disable_the_features
    (host : Host) (openai_client : ChatCompletionsClient) (system_prompt : string) :
  read_system_prompt host = Return system_prompt ->
  given (getenv host "AZURE_SEARCH_SERVICE_NAME") &&
  given (getenv host "AZURE_SEARCH_INDEX_NAME") &&
  given (getenv host "AZURE_SEARCH_API_KEY") = false ->
  given (getenv host "AZURE_STORAGE_CONTAINER_NAME") = false ->
  exists printed,
    start_application host openai_client =
    (map Printed printed,
     Return {| SYSTEM_PROMPT := system_prompt;
               search_service := None;
               blob_service := None;
               client := openai_client |}) /\
    forall (rt : Runtime) (request : Request) (d : dict) (user_question : json),
      get_json request = Return (JObj d) ->
      dict_get d "prompt" = Some user_question ->
      truthy user_question = true ->
      service_calls
        (fst (chat_handler rt
                {| SYSTEM_PROMPT := system_prompt; search_service := None;
                   blob_service := None; client := openai_client |} request)) =
      [ CompletionCall [ SystemMessage (system_prompt +:+ not_configured_context);
                         UserMessage user_question ] ].
Proof.
  intros P S C.
  exists [ "System prompt loaded successfully.";
           "Error initializing Azure AI Search: " +:+
             "Missing required Azure AI Search configuration" +:+
             ". Search functionality will be disabled.";
           "Error initializing Azure Blob Storage: " +:+
             "Missing required Blob Storage container name" +:+
             ". Document upload will be disabled." ].
  split.
  - unfold start_application, load_system_prompt, start_search_service,
      start_blob_service, AzureSearchService_init, BlobStorageService_init, or_else.
    cbn [given]. rewrite P, S, C. reflexivity.
  - intros rt request d user_question G Q T.
    rewrite (chat_handler_prompt rt _ request d user_question G Q T).
    rewrite answer_question_calls. cbn [search_service blob_service List.app].
    destruct (completion_call rt _ user_question); reflexivity.
Qed.

Lemma missing_settings_disable_the_features_witness :
  exists printed,
    start_application bare_host (fun _ _ _ => Return mock_completion) =
    (map Printed printed,
     Return {| SYSTEM_PROMPT := "You answer due diligence questionnaires.";
               search_service := None;
               blob_service := None;
               client := fun _ _ _ => Return mock_completion |}).
Proof.
  destruct (missing_settings_disable_the_features bare_host
              (fun _ _ _ => Return mock_completion)
              "You answer due diligence questionnaires." eq_refl eq_refl eq_refl)
    as (printed & E & _).
  exists printed. exact E.
Defined.

(** X18: The default system prompt is used only when reading the file fails
    with a FileNotFoundError; any other failure of the read is a failure of
    the start. *)
Theorem system_prompt_falls_back_only_for_a_missing_file
    (host : Host) (openai_client : ChatCompletionsClient) (e : exn) :
  read_system_prompt host = Raise e ->
  if isinstance host "FileNotFoundError" e
  then load_system_prompt host =
       ([Printed "Warning: system_prompt.txt not found. Using default prompt."],
        Return "You are a helpful AI assistant.")
  else start_application host openai_client = ([], Raise e).
Proof.
  intros R. unfold start_application, load_system_prompt. rewrite R.
  cbn [lift bind try_except_only].
  destruct (isinstance host "FileNotFoundError" e); reflexivity.
Qed.

Lemma system_prompt_falls_back_only_for_a_missing_file_witness :
  load_system_prompt locked_host =
  ([Printed "Warning: system_prompt.txt not found. Using default prompt."],
   Return "You are a helpful AI assistant.").
Proof.
  exact (system_prompt_falls_back_only_for_a_missing_file locked_host
           (fun _ _ _ => Return mock_completion)
           (Exception "FileNotFoundError" "system_prompt.txt") eq_refl).
Defined.

Lemma start_search_service_outcome (host : Host) :
  snd (start_search_service host) =
  match AzureSearchService_init (getenv host) (make_search_client host) None None None with
  | Return service => Return (Some service)
  | Raise e => if isinstance host "ValueError" e then Return None else Raise e
  end.
Proof.
  unfold start_search_service.
  destruct (AzureSearchService_init (getenv host) (make_search_client host)
              None None None) as [service|e]; [reflexivity|].
  cbn [lift bind try_except_only].
  destruct (isinstance host "ValueError" e); reflexivity.
Qed.

Lemma start_blob_service_outcome (host : Host) :
  snd (start_blob_service host) =
  match snd (BlobStorageService_init (getenv host) (blob_sdk host) None None None) with
  | Return service => Return (Some service)
  | Raise e => if isinstance host "ValueError" e then Return None else Raise e
  end.
Proof.
  unfold start_blob_service.
  destruct (BlobStorageService_init (getenv host) (blob_sdk host) None None None)
    as [t [service|e]]; [reflexivity|].
  unfold relabel. cbn [fst snd bind try_except_only].
  destruct (isinstance host "ValueError" e); reflexivity.
Qed.

(** X19: A constructor that raises disables its service only when the
    exception is a ValueError; any other exception of the storage (a
    container that cannot be created, a failed login) is raised by the
    start of the application. *)
Theorem storage_error_stops_the_start
    (host : Host) (openai_client : ChatCompletionsClient)
    (system_prompt : string) (search : option AzureSearchServiceObject) (e : exn) :
  snd (load_system_prompt host) = Return system_prompt ->
  snd (start_search_service host) = Return search ->
  snd (BlobStorageService_init (getenv host) (blob_sdk host) None None None) = Raise e ->
  if isinstance host "ValueError" e
  then exists app,
         snd (start_application host openai_client) = Return app /\
         blob_service app = None /\
         SYSTEM_PROMPT app = system_prompt
  else snd (start_application host openai_client) = Raise e.
Proof.
  intros P S B. unfold start_application.
  rewrite (snd_bind_return _ _ _ P), (snd_bind_return _ _ _ S).
  pose proof (start_blob_service_outcome host) as O. rewrite B in O.
  destruct (isinstance host "ValueError" e).
  - rewrite (snd_bind_return _ _ _ O). eexists. repeat split.
  - now rewrite (snd_bind_raise _ _ _ O).
Qed.

Lemma storage_error_stops_the_start_witness :
  snd (start_application locked_host (fun _ _ _ => Return mock_completion)) =
  Raise (Exception "HttpResponseError" "AuthorizationFailure").
Proof.
  exact (storage_error_stops_the_start locked_host (fun _ _ _ => Return mock_completion)
           "You are a helpful AI assistant." None
           (Exception "HttpResponseError" "AuthorizationFailure")
           eq_refl eq_refl eq_refl).
Defined.

(** ** document_generator.py: the name and the upload of the document *)

Lemma ascii_is_not_continuation (c : ascii) :
  is_ascii c = true -> is_continuation c = false.
Proof.
  destruct c as [b0 b1 b2 b3 b4 b5 b6 b7].
  destruct b7; [|reflexivity].
  destruct b0, b1, b2, b3, b4, b5, b6; intros H; vm_compute in H; discriminate H.
Qed.

Lemma take_codepoints_ascii (s : string) :
  forall n, all_chars is_ascii s = true -> take_codepoints n s = take_chars n s.
Proof.
  induction s as [|c s IH]; intros n H; [now destruct n|].
  cbn [all_chars] in H. apply andb_true_iff in H as [A H].
  cbn [take_codepoints]. rewrite (ascii_is_not_continuation c A).
  destruct n as [|n]; [reflexivity|]. cbn [take_chars]. now rewrite IH.
Qed.

Lemma take_chars_ascii (s : string) :
  forall n, all_chars is_ascii s = true -> all_chars is_ascii (take_chars n s) = true.
Proof.
  induction s as [|c s IH]; intros n H; [now destruct n|].
  cbn [all_chars] in H. apply andb_true_iff in H as [A H].
  destruct n as [|n]; [reflexivity|]. cbn [take_chars all_chars].
  now rewrite A, IH.
Qed.

Lemma take_chars_length (s : string) :
  forall n, String.length (take_chars n s) = Nat.min n (String.length s).
Proof.
  induction s as [|c s IH]; intros n; [now destruct n|].
  destruct n as [|n]; [reflexivity|]. cbn [take_chars String.length Nat.min].
  now rewrite IH.
Qed.

Lemma continuation_run_ascii (s : string) :
  all_chars is_ascii s = true -> continuation_run s = (EmptyString, s).
Proof.
  destruct s as [|c s]; [reflexivity|].
  cbn [all_chars]. intros H. apply andb_true_iff in H as [A _].
  cbn [continuation_run]. now rewrite (ascii_is_not_continuation c A).
Qed.

Lemma codepoints_fuel_ascii (unicode_isalnum : string -> bool) (s : string) :
  forall fuel,
    String.length s <= fuel ->
    all_chars is_ascii s = true ->
    concat_strings
      (map (fun c => if py_isalnum unicode_isalnum c then c else "_")
           (codepoints_fuel fuel s)) =
    map_chars (fun c => if ascii_isalnum c then c else "_"%char) s.
Proof.
  induction s as [|c s IH]; intros fuel L H; [now destruct fuel|].
  destruct fuel as [|fuel]; [cbn in L; lia|].
  cbn [all_chars] in H. apply andb_true_iff in H as [A H].
  cbn [codepoints_fuel]. rewrite (continuation_run_ascii s H).
  cbn [map concat_strings fold_right map_chars py_isalnum]. rewrite A.
  fold (concat_strings
          (map (fun c => if py_isalnum unicode_isalnum c then c else "_")
               (codepoints_fuel fuel s))).
  rewrite IH; [|cbn in L; lia|exact H].
  destruct (ascii_isalnum c); reflexivity.
Qed.

Lemma map_chars_length (f : ascii -> ascii) (s : string) :
  String.length (map_chars f s) = String.length s.
Proof. induction s as [|c s IH]; cbn; [reflexivity|now rewrite IH]. Qed.

Lemma sanitized_chars (s : string) :
  all_chars (fun c => ascii_isalnum c || Ascii.eqb c "_")
    (map_chars (fun c => if ascii_isalnum c then c else "_"%char) s) = true.
Proof.
  induction s as [|c s IH]; [reflexivity|].
  cbn [map_chars all_chars]. rewrite IH, andb_true_r.
  destruct (ascii_isalnum c) eqn:A; [now rewrite A|apply orb_true_r].
Qed.

(** X20: For a question in ASCII, the part of the blob name taken from it is
    its first thirty characters with every character that is no letter and
    no digit replaced by an underscore: it has at most thirty characters,
    all of them letters, digits and underscores, so no slash, no dot and
    no space. *)
Theorem safe_question_is_safe (unicode_isalnum : string -> bool) (question : string) :
  all_chars is_ascii question = true ->
  safe_question unicode_isalnum question =
    map_chars (fun c => if ascii_isalnum c then c else "_"%char)
              (take_chars 30 question) /\
  all_chars (fun c => ascii_isalnum c || Ascii.eqb c "_")
    (safe_question unicode_isalnum question) = true /\
  String.length (safe_question unicode_isalnum question) =
    Nat.min 30 (String.length question).
Proof.
  intros H.
  assert (E : safe_question unicode_isalnum question =
              map_chars (fun c => if ascii_isalnum c then c else "_"%char)
                        (take_chars 30 question)).
  { unfold safe_question, codepoints.
    rewrite (take_codepoints_ascii question 30 H).
    apply codepoints_fuel_ascii; [lia|now apply take_chars_ascii]. }
  split; [exact E|]. rewrite E. split.
  - apply sanitized_chars.
  - now rewrite map_chars_length, take_chars_length.
Qed.

Lemma safe_question_is_safe_witness :
  safe_question (fun _ => false) "What is the fund's ESG policy?" =
  "What_is_the_fund_s_ESG_policy_".
Proof.
  rewrite (proj1 (safe_question_is_safe (fun _ => false)
                    "What is the fund's ESG policy?" eq_refl)).
  reflexivity.
Defined.

(** X21: [generate_and_upload_docx] never raises.  When the renderer raises it
    prints one line and returns [None] without an upload; otherwise it
    uploads the bytes of the document once, under the name made of the
    folder ddq_responses, the time and the safe part of the question, as a
    Word document, and returns what the upload returned, or [None] when
    the upload raised. *)
Theorem rendered_document_is_uploaded_or_none
    (rt : Runtime) (lib : DocxLibrary) (unicode_isalnum : string -> bool)
    (question answer : string) (sources : option (list string))
    (upload_document : string -> string -> string -> W string json) :
  match create_docx_document rt lib question answer sources with
  | Raise e =>
      generate_and_upload_docx rt lib unicode_isalnum question answer sources
        upload_document =
      ([Print ("Error generating and uploading document: " +:+ exn_text e)],
       Return JNull)
  | Return docx_bytes =>
      let blob_name := docx_blob_name rt unicode_isalnum question in
      service_calls
        (fst (generate_and_upload_docx rt lib unicode_isalnum question answer
                sources upload_document)) =
        [UploadCall docx_bytes blob_name docx_content_type] /\
      snd (generate_and_upload_docx rt lib unicode_isalnum question answer sources
             upload_document) =
        Return match snd (upload_document docx_bytes blob_name docx_content_type) with
               | Return document_url => document_url
               | Raise _ => JNull
               end
  end.
Proof.
  unfold generate_and_upload_docx.
  destruct (create_docx_document rt lib question answer sources) as [docx_bytes|e];
    [|reflexivity].
  cbv zeta. rewrite bind_return.
  set (blob_name := docx_blob_name rt unicode_isalnum question).
  destruct (upload_document docx_bytes blob_name docx_content_type)
    as [t [document_url|e]] eqn:U.
  - cbn [emit relabel bind fst snd ret try_except List.app].
    cbn [service_calls filter is_service_call]. split; [|reflexivity].
    f_equal. rewrite app_nil_r. apply service_calls_printed.
  - cbn [emit relabel bind fst snd ret try_except print List.app].
    cbn [service_calls filter is_service_call]. split; [|reflexivity].
    f_equal. fold (service_calls (map Print t ++
      [Print ("Error generating and uploading document: " +:+ exn_text e)])).
    rewrite service_calls_app, service_calls_printed. reflexivity.
Qed.

Lemma define_styles_taken (lib : DocxLibrary) (name : string) :
  has_style "Normal" (new_document lib) = true ->
  first_taken_style lib = Some name ->
  define_styles (new_document lib) =
  Raise (ValueError ("document already contains style '" +:+ name +:+ "'")).
Proof.
  intros N F. unfold first_taken_style in F.
  destruct (has_style "Title" (new_document lib)) eqn:T.
  { injection F as <-. unfold define_styles.
    erewrite and_then_return by (apply modify_style_run; exact N).
    unfold and_then at 1. unfold add_style.
    unfold has_style in T. style_known. now rewrite T. }
  destruct (has_style "Heading" (new_document lib)) eqn:H.
  { injection F as <-. unfold has_style in N, T, H. unfold define_styles.
    do 4 (erewrite and_then_return;
          [| first [ apply modify_style_run | apply add_style_run ];
             style_known; rewrite ?N, ?T, ?H; reflexivity ]).
    unfold and_then at 1. unfold add_style.
    style_known. now rewrite H. }
  destruct (has_style "Source" (new_document lib)) eqn:S; [|discriminate F].
  injection F as <-. unfold has_style in N, T, H, S. unfold define_styles.
  do 7 (erewrite and_then_return;
        [| first [ apply modify_style_run | apply add_style_run ];
           style_known; rewrite ?N, ?T, ?H, ?S; reflexivity ]).
  unfold and_then at 1. unfold add_style.
  style_known. now rewrite S.
Qed.

(** X22: The renderer works on a fresh template only: without the base style
    Normal it raises a KeyError, and when the template already has a style
    named Title, Heading or Source it raises a ValueError that names the
    first of them; no document is made. *)
Theorem renderer_needs_a_fresh_template
    (rt : Runtime) (lib : DocxLibrary) (question answer : string)
    (sources : option (list string)) :
  (has_style "Normal" (new_document lib) = false ->
   create_docx_document rt lib question answer sources =
   Raise (KeyError "no style with name 'Normal'")) /\
  (forall name,
     has_style "Normal" (new_document lib) = true ->
     first_taken_style lib = Some name ->
     create_docx_document rt lib question answer sources =
     Raise (ValueError ("document already contains style '" +:+ name +:+ "'"))).
Proof.
  split.
  - intros N. unfold create_docx_document, docx_document.
    unfold and_then at 1. unfold define_styles. unfold and_then at 1.
    unfold modify_style at 1. now rewrite N.
  - intros name N F. unfold create_docx_document, docx_document.
    unfold and_then at 1. now rewrite (define_styles_taken lib name N F).
Qed.

Lemma renderer_needs_a_fresh_template_witness :
  create_docx_document sample_runtime template_with_title "Q?" "A." None =
  Raise (ValueError "document already contains style 'Title'").
Proof.
  exact (proj2 (renderer_needs_a_fresh_template sample_runtime template_with_title
                  "Q?" "A." None) "Title" eq_refl eq_refl).
Defined.

(** ** search_service.py: the constructor *)

(** X24: Arguments that are not empty are used whatever the environment says,
    and the endpoint is https://NAME.search.windows.net; without arguments,
    and with empty arguments, the three settings are read from
    AZURE_SEARCH_SERVICE_NAME, AZURE_SEARCH_INDEX_NAME and
    AZURE_SEARCH_API_KEY: when the three are set and not empty the client
    is made from them, and when one of them is absent or empty the
    constructor raises a ValueError. *)
Theorem search_constructor_requires_every_setting
    (env : Env) (make_client : string -> string -> string -> Outcome SearchClient)
    (service_name index_name api_key : string) :
  (service_name <> "" -> index_name <> "" -> api_key <> "" ->
   AzureSearchService_init env make_client
     (Some service_name) (Some index_name) (Some api_key) =
   match make_client ("https://" +:+ service_name +:+ ".search.windows.net")
           index_name api_key with
   | Return search_client =>
       Return {| search_service_name := Some service_name;
                 search_index_name := Some index_name;
                 search_api_key := Some api_key;
                 search_endpoint :=
                   "https://" +:+ service_name +:+ ".search.windows.net";
                 search_client_of := search_client |}
   | Raise e => Raise e
   end) /\
  (given (env "AZURE_SEARCH_SERVICE_NAME") && given (env "AZURE_SEARCH_INDEX_NAME")
   && given (env "AZURE_SEARCH_API_KEY") = false ->
   AzureSearchService_init env make_client None None None =
   Raise (ValueError "Missing required Azure AI Search configuration")) /\
  (env "AZURE_SEARCH_SERVICE_NAME" = Some service_name ->
   env "AZURE_SEARCH_INDEX_NAME" = Some index_name ->
   env "AZURE_SEARCH_API_KEY" = Some api_key ->
   service_name <> "" -> index_name <> "" -> api_key <> "" ->
   AzureSearchService_init env make_client None None None =
   match make_client ("https://" +:+ service_name +:+ ".search.windows.net")
           index_name api_key with
   | Return search_client =>
       Return {| search_service_name := Some service_name;
                 search_index_name := Some index_name;
                 search_api_key := Some api_key;
                 search_endpoint :=
                   "https://" +:+ service_name +:+ ".search.windows.net";
                 search_client_of := search_client |}
   | Raise e => Raise e
   end) /\
  AzureSearchService_init env make_client (Some "") (Some "") (Some "") =
  AzureSearchService_init env make_client None None None.
Proof.
  split; [|split; [|split]].
  - intros N I K. unfold AzureSearchService_init, or_else.
    apply String.eqb_neq in N, I, K.
    do 3 (cbn [given negb andb setting_text]; rewrite ?N, ?I, ?K).
    cbn [given negb andb setting_text].
    destruct (make_client ("https://" +:+ service_name +:+ ".search.windows.net")
                index_name api_key); reflexivity.
  - intros H. unfold AzureSearchService_init, or_else. cbn [given]. now rewrite H.
  - intros EN EI EK N I K. unfold AzureSearchService_init, or_else.
    apply String.eqb_neq in N, I, K.
    rewrite EN, EI, EK.
    do 3 (cbn [given negb andb setting_text]; rewrite ?N, ?I, ?K).
    cbn [given negb andb setting_text].
    destruct (make_client ("https://" +:+ service_name +:+ ".search.windows.net")
                index_name api_key); reflexivity.
  - reflexivity.
Qed.

Lemma search_constructor_requires_every_setting_witness :
  (exists service,
     AzureSearchService_init configured_search_environment
       (fun _ _ _ => Return unreachable_index) None None None = Return service /\
     search_endpoint service = "https://ddq-search.search.windows.net" /\
     search_index_name service = Some "ddq-index") /\
  AzureSearchService_init search_environment (fun _ _ _ => Return unreachable_index)
    None None None =
  Raise (ValueError "Missing required Azure AI Search configuration").
Proof.
  split.
  - destruct (search_constructor_requires_every_setting configured_search_environment
                (fun _ _ _ => Return unreachable_index) "ddq-search" "ddq-index"
                "secret") as (_ & _ & C & _).
    eexists. split; [apply C; solve [reflexivity | discriminate]|].
    split; reflexivity.
  - destruct (search_constructor_requires_every_setting search_environment
                (fun _ _ _ => Return unreachable_index) "ddq" "documents" "key")
      as (_ & B & _).
    exact (B eq_refl).
Defined.

(** ** The handler on the search service of production *)

(** X25: With [AzureSearchService] as the search service, the handler queries
    the index with the prompt, no filter and [top = 3]; one result of the
    index without an id or a score is enough for the whole retrieval to be
    replaced by the text of the failed retrieval, with no source file. *)
Theorem one_broken_document_degrades_the_request
    (rt : Runtime) (app : Services) (user_question : json)
    (search_client : SearchClient) (results : SearchItemPaged) :
  search_service app =
    Some (fun query_text top =>
            AzureSearchService.search_documents search_client query_text None top) ->
  search_client user_question "semantic" "en-us" "default" None 3 true = Return results ->
  forallb has_required_keys (yielded results) = false ->
  messages_sent rt app user_question =
    [ SystemMessage (SYSTEM_PROMPT app +:+ search_error_context);
      UserMessage user_question ] /\
  set_iter (rt_set rt) (snd (retrieved rt app user_question)) = [].
Proof.
  intros S C K.
  assert (F : exists e,
            snd (AzureSearchService.search_documents search_client user_question
                   None 3) = Raise e).
  { unfold AzureSearchService.search_documents. rewrite C, bind_return.
    destruct (extract_documents_incomplete (yielded results)
                (iteration_error results) K) as [E|E]; rewrite E; now eexists. }
  destruct F as [e F].
  assert (R : retrieved rt app user_question =
              (search_error_context, set_new (rt_set rt))).
  { unfold retrieved.
    now rewrite (retrieved_failed rt app user_question _ e S F). }
  unfold messages_sent. rewrite R. split; [reflexivity|apply set_iter_new].
Qed.

Lemma one_broken_document_degrades_the_request_witness :
  messages_sent sample_runtime (services_searching index_with_a_broken_document)
    test_prompt =
    [ SystemMessage ("You are a helpful AI assistant." +:+ search_error_context);
      UserMessage test_prompt ].
Proof.
  exact (proj1 (one_broken_document_degrades_the_request sample_runtime
                  (services_searching index_with_a_broken_document) test_prompt
                  index_with_a_broken_document _ eq_refl eq_refl eq_refl)).
Defined.
